(** * NetMonitor_Kiosk: the uptime monitor's registry, scan loop and device view

    A shallow embedding of [uptime_monitor.py]: the shared [devices] dict,
    [scan_host], the bookkeeping block of [scan_loop] and the [/api/devices]
    handler, followed by the properties of the registry and of the view.

    Modelling decisions.
    - An address is the number [int(ipaddress.ip_address(ip))] of its
      dotted-quad string; the module start-up already applies that conversion
      to every key of [devices] and to every scanned host, and it is
      one-to-one on IPv4 strings. The source also takes an IPv6 key; its
      family matters to the sort of the handler only, where it is the
      parameter [ipv6] of [api_devices_response].
    - A reading of [time.time()], a float in the source, is an integer
      number of seconds; the code only subtracts readings, compares them
      and, in one place, tests them for truth.
    - [devices] is a finite map; the order in which Python iterates over it
      is not observable, because the handler sorts its rows on a key that
      contains the (unique) address.
    - A text (a line of the known-hosts file, a field of it) is a [string]
      whose characters are code points below 256.
    - [ping_ip] and the clock are the environment: the outcome [ok] and the
      reading [now] are arguments of [scan_host]. Every access to [devices]
      happens under [devices_lock], so an execution is a sequence of atomic
      steps. *)

From Stdlib Require Import ZArith String Ascii DecimalString.
From stdpp Require Import gmap list sorting strings.

Local Open Scope Z_scope.

(** ** Configuration *)

Definition OFFLINE_FORGET_SECONDS : Z := 300.
Definition NEW_DEVICE_WINDOW_MINUTES : Z := 5.
Definition NEW_DEVICE_WINDOW_SECONDS : Z := NEW_DEVICE_WINDOW_MINUTES * 60.

(** ** Data model *)

Abbreviation ipv4 := N (only parsing).

(** One value of the [devices] dict. The key ["seen_before_baseline"] is
    optional in the source: [None] is the absent key. *)
Record device := Device {
  ip : ipv4;
  hostname : option string;
  required : bool;
  vip : bool;
  from_known_hosts : bool;
  first_seen : option Z;
  last_seen : option Z;
  online : bool;
  created_at : Z;
  seen_before_baseline : option bool
}.

(** One value of [known_hosts_info], as [load_known_hosts] builds it. *)
Record host_info := HostInfo {
  hi_hostname : string;
  hi_required : bool;
  hi_vip : bool
}.

(** The in-place updates [entry[key] = value] of the source. *)
Definition set_first_seen (v : option Z) (d : device) : device :=
  Device (ip d) (hostname d) (required d) (vip d) (from_known_hosts d)
         v (last_seen d) (online d) (created_at d) (seen_before_baseline d).

Definition set_last_seen (v : option Z) (d : device) : device :=
  Device (ip d) (hostname d) (required d) (vip d) (from_known_hosts d)
         (first_seen d) v (online d) (created_at d) (seen_before_baseline d).

Definition set_online (v : bool) (d : device) : device :=
  Device (ip d) (hostname d) (required d) (vip d) (from_known_hosts d)
         (first_seen d) (last_seen d) v (created_at d) (seen_before_baseline d).

Definition set_seen_before_baseline (v : bool) (d : device) : device :=
  Device (ip d) (hostname d) (required d) (vip d) (from_known_hosts d)
         (first_seen d) (last_seen d) (online d) (created_at d) (Some v).

(** The process state: the global [devices], the global [baseline_done] and
    the local [first_iteration] of the single [scan_loop] thread. *)
Record state := State {
  devices : gmap N device;
  baseline_done : bool;
  first_iteration : bool
}.

(** ** Start-up: [devices] filled from [known_hosts_info] *)

Definition seed (now_init : Z) (ip : ipv4) (info : host_info) : device :=
  {| ip := ip;
     hostname := Some (hi_hostname info);
     required := hi_required info;
     vip := hi_vip info;
     from_known_hosts := true;
     first_seen := None;
     last_seen := None;
     online := false;
     created_at := now_init;
     seen_before_baseline := None |}.

Definition init_devices (known_hosts_info : gmap N host_info) (now_init : Z)
  : gmap N device :=
  map_imap (λ ip info, Some (seed now_init ip info)) known_hosts_info.

Definition init (known_hosts_info : gmap N host_info) (now_init : Z) : state :=
  {| devices := init_devices known_hosts_info now_init;
     baseline_done := false;
     first_iteration := true |}.

(** ** [scan_host] *)

(** The record [scan_host] stores for an address that answers and is not in
    [devices] yet. *)
Definition new_dynamic (ip : ipv4) (now : Z) : device :=
  {| ip := ip;
     hostname := None;
     required := false;
     vip := false;
     from_known_hosts := false;
     first_seen := Some now;
     last_seen := Some now;
     online := true;
     created_at := now;
     seen_before_baseline := None |}.

(** The update of a known entry that answers. *)
Definition mark_alive (now : Z) (entry : device) : device :=
  let entry :=
    match first_seen entry with
    | None => set_first_seen (Some now) entry
    | Some _ => entry
    end in
  let entry := set_last_seen (Some now) entry in
  set_online true entry.

(** The body of [scan_host] under the lock: [ok] is the result of [ping_ip]
    and [now] the clock reading taken just before. *)
Definition scan_host (ip : ipv4) (ok : bool) (now : Z)
    (devices : gmap N device) : gmap N device :=
  let entry := devices !! ip in
  if ok then
    match entry with
    | None => <[ip := new_dynamic ip now]> devices
    | Some entry => <[ip := mark_alive now entry]> devices
    end
  else
    match entry with
    | None => devices
    | Some entry => <[ip := set_online false entry]> devices
    end.

(** ** The bookkeeping block of [scan_loop] *)

(** Python's truth value of a clock reading that may be [None]: [None] and
    [0.0] are false. *)
Definition truthy (t : option Z) : bool :=
  match t with
  | Some z => negb (z =? 0)
  | None => false
  end.

(** [a or b] on such values. *)
Definition py_or (a b : option Z) : option Z := if truthy a then a else b.

(** [d.get("last_seen") or d.get("created_at") or now] *)
Definition base (now : Z) (d : device) : Z :=
  default now (py_or (py_or (last_seen d) (Some (created_at d))) (Some now)).

(** The test that puts an address on [to_delete]. *)
Definition stale (now : Z) (d : device) : bool :=
  if from_known_hosts d || required d then false
  else if online d then false
  else now - base now d >? OFFLINE_FORGET_SECONDS.

Definition to_delete (now : Z) (devices : gmap N device) : list N :=
  (filter (λ kv, stale now kv.2 = true) (map_to_list devices)).*1.

(** Second half of the block: collect [to_delete], then [del devices[ip]]
    for each of its addresses. *)
Definition evict_stale (now : Z) (devices : gmap N device) : gmap N device :=
  foldl (λ devs ip, delete ip devs) devices (to_delete now devices).

(** First half of the block: the baseline marking of the first sweep. *)
Definition mark_baseline (st : state) : state :=
  if first_iteration st && negb (baseline_done st) then
    {| devices := set_seen_before_baseline true <$> devices st;
       baseline_done := true;
       first_iteration := false |}
  else st.

(** The whole [with devices_lock:] block that ends a sweep. *)
Definition bookkeeping (now : Z) (st : state) : state :=
  let st := mark_baseline st in
  {| devices := evict_stale now (devices st);
     baseline_done := baseline_done st;
     first_iteration := first_iteration st |}.

(** ** Executions *)

(** The atomic steps that change the state: one [scan_host] call, or the
    bookkeeping that ends a sweep once all its probes are done. *)
Inductive event :=
| Probe (ip : ipv4) (ok : bool) (now : Z)
| EndSweep (now : Z).

Definition step (st : state) (e : event) : state :=
  match e with
  | Probe ip ok now =>
      {| devices := scan_host ip ok now (devices st);
         baseline_done := baseline_done st;
         first_iteration := first_iteration st |}
  | EndSweep now => bookkeeping now st
  end.

Definition run (st : state) (tr : list event) : state := foldl step st tr.

Definition is_EndSweep (e : event) : bool :=
  match e with EndSweep _ => true | Probe _ _ _ => false end.

(** The probes of one sweep (or of any stretch of an execution), in the
    order in which the [scan_host] calls take the lock: each carries the
    address, the ping result and the clock reading of its call. *)
Definition scan_hosts (outcomes : list (N * bool * Z))
    (devices : gmap N device) : gmap N device :=
  foldl (λ devs o, scan_host o.1.1 o.1.2 o.2 devs) devices outcomes.

(** One iteration of the [while True] loop of [scan_loop]: the probes of
    the sweep, all done when the executor is left, then the bookkeeping at
    the clock reading [now]. *)
Definition scan_loop_iteration (sweep : list (N * bool * Z) * Z)
    (st : state) : state :=
  let (outcomes, now) := sweep in
  bookkeeping now
    {| devices := scan_hosts outcomes (devices st);
       baseline_done := baseline_done st;
       first_iteration := first_iteration st |}.

(** The first iterations of [scan_loop], one per element of [sweeps]. *)
Definition scan_loop (sweeps : list (list (N * bool * Z) * Z))
    (st : state) : state :=
  foldl (λ st sweep, scan_loop_iteration sweep st) st sweeps.

(** The steps of one iteration. *)
Definition sweep_events (sweep : list (N * bool * Z) * Z) : list event :=
  ((λ o, Probe o.1.1 o.1.2 o.2) <$> sweep.1) ++ [EndSweep sweep.2].

(** ** [api_devices] *)

(** The keys of a result dict that are sent to the client. *)
Record payload := Payload {
  p_ip : ipv4;
  p_hostname : option string;
  p_required : bool;
  p_vip : bool;
  p_online : bool;
  age_seconds : option Z;
  last_seen_seconds_ago : option Z;
  is_new : bool
}.

(** A result dict before [dev.pop("group", None)]. *)
Record row := Row {
  group : Z;
  fields : payload
}.

(** The filter at the top of the loop body: [true] where the source reaches
    no [continue]. *)
Definition visible (d : device) : bool :=
  if negb (online d) then
    if vip d then false
    else if negb (required d) then false
    else if negb (from_known_hosts d) then false
    else true
  else true.

Definition compute_age (now : Z) (d : device) : option Z :=
  match first_seen d with Some f => Some (now - f) | None => None end.

Definition compute_last_seen_ago (now : Z) (d : device) : option Z :=
  match last_seen d with Some l => Some (now - l) | None => None end.

(** [d.get("seen_before_baseline", False)] *)
Definition seen_before (d : device) : bool :=
  default false (seen_before_baseline d).

Definition compute_is_new (baseline_done : bool) (now : Z) (d : device) : bool :=
  let age := compute_age now d in
  let seen_before_baseline := seen_before d in
  online d
  && bool_decide (first_seen d ≠ None)
  && baseline_done
  && negb seen_before_baseline
  && match age with
     | Some age => age <=? NEW_DEVICE_WINDOW_SECONDS
     | None => false
     end.

Definition compute_group (is_new : bool) (d : device) : Z :=
  if from_known_hosts d && required d then 0
  else if vip d && online d then 1
  else if is_new then 2
  else 3.

(** The dict appended to [result] for a record that passed the filter. *)
Definition make_row (baseline_done : bool) (now : Z) (ip : ipv4) (d : device) : row :=
  let is_new := compute_is_new baseline_done now d in
  {| group := compute_group is_new d;
     fields := {| p_ip := ip;
                  p_hostname := hostname d;
                  p_required := required d;
                  p_vip := vip d;
                  p_online := online d;
                  age_seconds := compute_age now d;
                  last_seen_seconds_ago := compute_last_seen_ago now d;
                  is_new := is_new |} |}.

(** [result] at the end of the loop over [devices.items()]. *)
Definition collect (now : Z) (st : state) : list row :=
  omap (λ kv, if visible kv.2
              then Some (make_row (baseline_done st) now kv.1 kv.2)
              else None)
       (map_to_list (devices st)).

(** The order of the sort key [(dev["group"], ip_address(dev["ip"]))]:
    Python compares the tuples lexicographically. *)
Definition key_le (a b : row) : Prop :=
  group a < group b ∨ (group a = group b ∧ (p_ip (fields a) ≤ p_ip (fields b))%N).

Definition key_lt (a b : row) : Prop :=
  group a < group b ∨ (group a = group b ∧ (p_ip (fields a) < p_ip (fields b))%N).

Global Instance key_le_dec a b : Decision (key_le a b).
Proof. unfold key_le. apply _. Defined.

(** [result] after [result.sort(key=...)], when the sort does not raise:
    the source compares address objects, and comparing an IPv4 with an
    IPv6 address raises; [sort_py] below is the sort with that comparison,
    and [api_devices_response] the handler that can fail. *)
Definition sorted_rows (now : Z) (st : state) : list row :=
  merge_sort key_le (collect now st).

(** The list under ["devices"] in the response: every row without its
    group. *)
Definition api_devices (now : Z) (st : state) : list payload :=
  fields <$> sorted_rows now st.

(** ** Predicates of the statements *)

(** The eviction condition in the words of the specification: not from the
    static list, not required, offline, and [now] minus [last_seen] (or
    [created_at] when [last_seen] is unset) above the threshold. *)
Definition forgettable (now threshold : Z) (d : device) : bool :=
  negb (from_known_hosts d) && negb (required d) && negb (online d)
  && (now - default (created_at d) (last_seen d) >? threshold).

(** Stored clock readings are not [0]: on such a record Python's [or] picks
    [last_seen] when it is set and [created_at] otherwise. *)
Definition clock_stamped (d : device) : Prop :=
  last_seen d ≠ Some 0 ∧ created_at d ≠ 0.

Global Instance clock_stamped_dec d : Decision (clock_stamped d).
Proof. unfold clock_stamped. apply _. Defined.

(** The clock reading that [e] stores, if it stores one, is not [0]. *)
Definition reading_nonzero (e : event) : bool :=
  match e with
  | Probe _ true t => negb (t =? 0)
  | _ => true
  end.

(** An address is in the response when some entry carries it. *)
Definition listed (addr : N) (view : list payload) : Prop :=
  addr ∈ p_ip <$> view.

(** The group of an emitted entry, read back from the registry: the group
    is not in the entry itself. *)
Definition payload_group (st : state) (p : payload) : Z :=
  match devices st !! p_ip p with
  | Some d => compute_group (is_new p) d
  | None => 3
  end.

(** The sort order on emitted entries. *)
Definition payload_lt (st : state) (p q : payload) : Prop :=
  payload_group st p < payload_group st q
  ∨ (payload_group st p = payload_group st q ∧ (p_ip p < p_ip q)%N).

(** The shape of a record's timestamps: an online record has both, and a
    record without [last_seen] is a static one that is offline and has no
    [first_seen] either. *)
Definition well_stamped (d : device) : Prop :=
  (online d = true → is_Some (first_seen d) ∧ is_Some (last_seen d))
  ∧ (last_seen d = None →
       from_known_hosts d = true ∧ online d = false ∧ first_seen d = None).

(** [e] is not a successful probe of [i] with a reading before [t]. *)
Definition not_before (i : N) (t : Z) (e : event) : bool :=
  match e with
  | Probe j true t' => if decide (j = i) then t <=? t' else true
  | _ => true
  end.

(** The clock does not run backwards between two successful probes of the
    same address. *)
Fixpoint clock_monotone (tr : list event) : bool :=
  match tr with
  | [] => true
  | e :: tr' =>
      match e with
      | Probe i true t => forallb (not_before i t) tr'
      | _ => true
      end && clock_monotone tr'
  end.

(** [first_seen] is not after [last_seen], and [last_seen] not after the
    successful probes of the address that are still to come in [tr]. *)
Definition seen_in_order (tr : list event) (i : N) (d : device) : Prop :=
  match first_seen d with
  | Some f =>
      ∃ l, last_seen d = Some l ∧ f ≤ l ∧ forallb (not_before i l) tr = true
  | None => True
  end.

(** ** [load_known_hosts] *)

(** A text is a [string] whose characters are code points below 256; the
    methods of Python's [str] that the parser uses, on such texts. *)

(** [c.isspace()] *)
Definition isspace (c : ascii) : bool :=
  match N_of_ascii c with
  | 9 | 10 | 11 | 12 | 13 | 28 | 29 | 30 | 31 | 32 | 133 | 160 => true
  | _ => false
  end%N.

Global Arguments isspace : simpl never.

(** [s.lstrip()] *)
Fixpoint lstrip (s : string) : string :=
  match s with
  | String c s' => if isspace c then lstrip s' else s
  | EmptyString => EmptyString
  end.

(** [s.rstrip()] *)
Fixpoint rstrip (s : string) : string :=
  match s with
  | String c s' =>
      match rstrip s' with
      | EmptyString => if isspace c then EmptyString else String c EmptyString
      | r => String c r
      end
  | EmptyString => EmptyString
  end.

(** [s.strip()] *)
Definition strip (s : string) : string := lstrip (rstrip s).

(** [c.lower()] *)
Definition lower_char (c : ascii) : ascii :=
  let n := N_of_ascii c in
  if ((65 <=? n) && (n <=? 90)
      || (192 <=? n) && (n <=? 222) && negb (n =? 215))%N
  then ascii_of_N (n + 32)
  else c.

Global Arguments lower_char : simpl never.

(** [s.lower()] *)
Fixpoint lower (s : string) : string :=
  match s with
  | String c s' => String (lower_char c) (lower s')
  | EmptyString => EmptyString
  end.

(** [s.split(sep)] for a separator of one character *)
Fixpoint split (sep : ascii) (s : string) : list string :=
  match s with
  | String c s' =>
      if Ascii.eqb c sep then EmptyString :: split sep s'
      else match split sep s' with
           | part :: parts => String c part :: parts
           | [] => [String c EmptyString]
           end
  | EmptyString => [EmptyString]
  end.

(** [s.startswith(c)] for a prefix of one character *)
Definition startswith (c : ascii) (s : string) : bool :=
  match s with
  | String c' _ => Ascii.eqb c' c
  | EmptyString => false
  end.

(** [s in ("true", "1", "yes", "ja")] *)
Definition is_true_word (s : string) : bool :=
  bool_decide (s ∈ ["true"; "1"; "yes"; "ja"]).

(** The body of the loop over the lines of the file: [None] where the
    source reaches a [continue], else the key and the value that it stores
    in [info]. *)
Definition parse_line (line : string) : option (string * host_info) :=
  let line := strip line in
  if bool_decide (line = "") || startswith "#" line then None
  else
    let parts := strip <$> split "," line in
    if (length parts <? 3)%nat then None
    else
      match parts with
      | ip :: hostname :: req_str :: rest =>
          let required := is_true_word (lower req_str) in
          let vip :=
            match rest with
            | vip_str :: _ => is_true_word (lower vip_str)
            | [] => false
            end in
          Some (ip, HostInfo hostname required vip)
      | _ => None
      end.

(** [load_known_hosts]: [file] is the list of the lines of the file, or
    [None] when opening it raises [FileNotFoundError]. *)
Definition load_known_hosts (file : option (list string))
  : gmap string host_info :=
  match file with
  | Some lines =>
      foldl (λ info line,
               match parse_line line with
               | Some (ip, entry) => <[ip := entry]> info
               | None => info
               end) ∅ lines
  | None => ∅
  end.


(** Every character of [s] is white space. *)
Fixpoint all_space (s : string) : bool :=
  match s with
  | String c s' => isspace c && all_space s'
  | EmptyString => true
  end.

(** The number of occurrences of [c] in [s]. *)
Fixpoint count_char (c : ascii) (s : string) : nat :=
  match s with
  | String c' s' => (if Ascii.eqb c' c then 1 else 0) + count_char c s'
  | EmptyString => 0
  end.

(** A line that holds no entry: blank, a comment (its first character
    after leading white space is [#]), or with fewer than two commas. *)
Definition ignorable (line : string) : bool :=
  let s := lstrip line in
  bool_decide (s = "") || startswith "#" s || (count_char "," line <? 2)%nat.

(** The entry that [line] holds for the key [ip], if it holds one. *)
Definition entry_of (ip : string) (line : string) : option host_info :=
  match parse_line line with
  | Some (ip', entry) => if decide (ip' = ip) then Some entry else None
  | None => None
  end.

(** The text of a flag in the format of the docstring of
    [load_known_hosts]. *)
Definition bool_word (b : bool) : string := if b then "true" else "false".

(** ** Start-up: the list [hosts] *)

(** [hosts] as the module builds it: the hosts of the network and the keys
    of [known_hosts_info] in one set, sorted by numeric address.
    [network_hosts] is the result of [network.hosts()]. *)
Definition hosts (network_hosts : list N)
    (known_hosts_info : gmap N host_info) : list N :=
  let host_set : gset N :=
    list_to_set network_hosts ∪ dom known_hosts_info in
  merge_sort N.le (elements host_set).

(** The addresses that the probes of [outcomes] went to. *)
Definition probed (outcomes : list (N * bool * Z)) : list N :=
  (λ o, o.1.1) <$> outcomes.

(** What the registry keeps of a record, given the known-hosts list it was
    started from: the record carries its own address; a record of a known
    host is static and has the hostname and the flags of the list and the
    creation time of the start-up; any other record is dynamic, without
    hostname and flags, first seen when it was created and seen since. *)
Definition record_origin (known : gmap N host_info) (now_init : Z)
    (a : N) (d : device) : Prop :=
  ip d = a
  ∧ match known !! a with
    | Some info =>
        from_known_hosts d = true
        ∧ hostname d = Some (hi_hostname info)
        ∧ required d = hi_required info
        ∧ vip d = hi_vip info
        ∧ created_at d = now_init
    | None =>
        from_known_hosts d = false
        ∧ hostname d = None
        ∧ required d = false
        ∧ vip d = false
        ∧ first_seen d = Some (created_at d)
        ∧ is_Some (last_seen d)
    end.

(** ** [ping_ip] *)

(** [str(n)] of an integer. *)
Definition str_of_Z (n : Z) : string := NilZero.string_of_int (Z.to_int n).

(** The command that [ping_ip] runs. [system] is
    [platform.system().lower()]. For a timeout that a double holds exactly
    (below 2^53 in size, [double_exact]), [int(timeout_ms / 1000)] is the
    quotient cut off towards zero; beyond that the float division rounds
    or raises, and this definition does not follow it. *)
Definition ping_cmd (system : string) (ip : string) (timeout_ms : Z)
  : list string :=
  if bool_decide (system = "windows") then
    ["ping"; "-n"; "1"; "-w"; str_of_Z timeout_ms; ip]
  else
    let timeout_s := Z.max 1 (Z.quot timeout_ms 1000) in
    ["ping"; "-c"; "1"; "-W"; str_of_Z timeout_s; ip].

(** [ping_ip]: [run] stands for [subprocess.run], giving the return code
    of the command, or [None] when it raises. *)
Definition ping_ip (run : list string → option Z) (system : string)
    (ip : string) (timeout_ms : Z) : bool :=
  match run (ping_cmd system ip timeout_ms) with
  | Some returncode => returncode =? 0
  | None => false
  end.

(** ** The dashboard script *)

(** [formatAge]; [seconds] is [None] for [null]. On the whole numbers
    that a double holds exactly (below 2^53 in size, [double_exact]),
    [Math.floor] of a quotient is [Z.div], [%] of the script is [Z.rem] and
    the text of a number is its decimal text; beyond them the script
    rounds, and this definition does not follow it. *)
Definition formatAge (seconds : option Z) : string :=
  match seconds with
  | None => "-"
  | Some s =>
      let h := s / 3600 in
      let m := Z.rem s 3600 / 60 in
      let r := Z.rem s 60 in
      if 0 <? h then str_of_Z h +:+ "h " +:+ str_of_Z m +:+ "m"
      else if 0 <? m then str_of_Z m +:+ "m " +:+ str_of_Z r +:+ "s"
      else str_of_Z r +:+ "s"
  end.



(** [f] applied to the first element of a list. *)
Definition map_first {A} (f : A → A) (l : list A) : list A :=
  match l with
  | x :: l' => f x :: l'
  | [] => []
  end.

(** [f] applied to the last element of a list. *)
Fixpoint map_last {A} (f : A → A) (l : list A) : list A :=
  match l with
  | [] => []
  | x :: l' =>
      match l' with
      | [] => [f x]
      | _ :: _ => x :: map_last f l'
      end
  end.

(** ** The sort of [api_devices] on address objects *)

(** [a < b] on the sort keys [(dev["group"], ip_address(dev["ip"]))] of two
    rows, as Python evaluates it on the tuples: the groups decide when they
    differ, else the address objects are compared, and comparing an IPv4
    with an IPv6 address raises [TypeError], here [None]. [ipv6 a] tells
    whether the key [a] is an IPv6 address. *)
Definition key_lt_py (ipv6 : N → bool) (a b : row) : option bool :=
  if group a =? group b then
    if (p_ip (fields a) =? p_ip (fields b))%N then Some false
    else if eqb (ipv6 (p_ip (fields a))) (ipv6 (p_ip (fields b)))
         then Some (p_ip (fields a) <? p_ip (fields b))%N
         else None
  else Some (group a <? group b).

(** One insertion of a sort that compares with [<] only. *)
Fixpoint insert_py (ipv6 : N → bool) (x : row) (l : list row)
  : option (list row) :=
  match l with
  | [] => Some [x]
  | y :: l' =>
      match key_lt_py ipv6 x y with
      | Some true => Some (x :: y :: l')
      | Some false => cons y <$> insert_py ipv6 x l'
      | None => None
      end
  end.

(** [result.sort(key=...)] as a sort by insertion on that comparison:
    [None] when a comparison raises. Python's own sort makes its
    comparisons in another order; like every sort by comparisons it has to
    compare the rows that end up next to each other, so it raises on the
    same lists (see [api_devices_response_None]) and returns the same
    list otherwise. *)
Fixpoint sort_py (ipv6 : N → bool) (l : list row) : option (list row) :=
  match l with
  | [] => Some []
  | x :: l' => sort_py ipv6 l' ≫= insert_py ipv6 x
  end.

(** The handler with the sort on address objects: the list under
    ["devices"], or [None] when the sort raises and the request fails. *)
Definition api_devices_response (ipv6 : N → bool) (now : Z) (st : state)
  : option (list payload) :=
  match sort_py ipv6 (collect now st) with
  | Some result => Some (fields <$> result)
  | None => None
  end.

(** No two rows of one group belong to addresses of different families. *)
Definition one_family_per_group (ipv6 : N → bool) (l : list row) : Prop :=
  ∀ a b, a ∈ l → b ∈ l → group a = group b →
         ipv6 (p_ip (fields a)) = ipv6 (p_ip (fields b)).

(** The whole numbers that a double holds exactly: on them the float
    arithmetic of [ping_ip] and of the dashboard script is the integer
    arithmetic of [ping_cmd] and [formatAge]. *)
Definition double_exact (n : Z) : Prop := - 2 ^ 53 < n < 2 ^ 53.

(** * Properties *)

(** ** [scan_host]: one probe outcome *)

Section scan_host_facts.
Context (ip : N) (now : Z) (devs : gmap N device).

Lemma scan_host_other ok ip' :
  ip' ≠ ip → scan_host ip ok now devs !! ip' = devs !! ip'.
Proof.
  intros Hne. unfold scan_host.
  destruct ok, (devs !! ip); rewrite ?lookup_insert_ne; done.
Qed.

Lemma scan_host_ok_unknown :
  devs !! ip = None →
  scan_host ip true now devs !! ip = Some (new_dynamic ip now).
Proof. intros E. unfold scan_host. rewrite E. apply lookup_insert_eq. Qed.

Lemma scan_host_ok_known d :
  devs !! ip = Some d →
  scan_host ip true now devs !! ip = Some (mark_alive now d).
Proof. intros E. unfold scan_host. rewrite E. apply lookup_insert_eq. Qed.

Lemma scan_host_fail_unknown :
  devs !! ip = None → scan_host ip false now devs = devs.
Proof. intros E. unfold scan_host. by rewrite E. Qed.

Lemma scan_host_fail_known d :
  devs !! ip = Some d →
  scan_host ip false now devs !! ip = Some (set_online false d).
Proof. intros E. unfold scan_host. rewrite E. apply lookup_insert_eq. Qed.
End scan_host_facts.

(** What a probe does to the record of an arbitrary address [ip']. *)
Lemma scan_host_lookup ip ok now devs ip' :
  scan_host ip ok now devs !! ip' =
    if decide (ip' = ip) then
      match devs !! ip with
      | Some d => Some (if ok then mark_alive now d else set_online false d)
      | None => if ok then Some (new_dynamic ip now) else None
      end
    else devs !! ip'.
Proof.
  case_decide as E; [subst ip'|by apply scan_host_other].
  destruct ok, (devs !! ip) as [d|] eqn:Hd.
  - by apply scan_host_ok_known.
  - by apply scan_host_ok_unknown.
  - by apply scan_host_fail_known.
  - by rewrite scan_host_fail_unknown.
Qed.

Lemma mark_alive_first_seen now d f :
  first_seen d = Some f → first_seen (mark_alive now d) = Some f.
Proof. intros E. unfold mark_alive. by rewrite E. Qed.

(** A record whose [first_seen] is set keeps it through one probe of any
    address, whatever the outcome. *)
Lemma scan_host_first_seen ip ok now devs ip' d f :
  devs !! ip' = Some d → first_seen d = Some f →
  ∃ d', scan_host ip ok now devs !! ip' = Some d' ∧ first_seen d' = Some f.
Proof.
  intros Hd Hf. rewrite scan_host_lookup.
  case_decide as E; [subst ip'; rewrite Hd|eauto].
  destruct ok; eexists; split; try reflexivity.
  - by apply mark_alive_first_seen.
  - done.
Qed.

(** C5. Once the record of an address has [first_seen] set to a timestamp,
    no sequence of later probe outcomes applied by [scan_host] (successful
    or failed, of this or of any other address) changes it, clears it or
    moves it: the record is still there and holds the same [first_seen]. *)
Theorem first_seen_monotone outcomes devs ip d f :
  devs !! ip = Some d →
  first_seen d = Some f →
  ∃ d', scan_hosts outcomes devs !! ip = Some d' ∧ first_seen d' = Some f.
Proof.
  revert devs d. induction outcomes as [|[[ip0 ok] now] outcomes IH];
    intros devs d Hd Hf; simpl.
  - eauto.
  - destruct (scan_host_first_seen ip0 ok now devs ip d f Hd Hf) as (d1 & H1 & Hf1).
    exact (IH _ _ H1 Hf1).
Qed.

Lemma first_seen_monotone_witness :
  let devs : gmap N device := {[ 9%N := new_dynamic 9 1010 ]} in
  ∃ d', scan_hosts [(9%N, false, 1040); (7%N, true, 1041); (9%N, true, 1070)] devs
          !! 9%N = Some d'
        ∧ first_seen d' = Some 1010.
Proof.
  exact (first_seen_monotone
           [(9%N, false, 1040); (7%N, true, 1041); (9%N, true, 1070)]
           {[ 9%N := new_dynamic 9 1010 ]} 9%N (new_dynamic 9 1010) 1010
           eq_refl eq_refl).
Defined.

(** C6. A successful probe at [now]: for an address without a record, a
    dynamic record is created ([from_known_hosts] false, [first_seen] and
    [last_seen] both [now], [online] true); for an address with a record,
    [online] becomes true, [last_seen] becomes [now], [first_seen] becomes
    [now] only when it was unset and is kept otherwise, and the remaining
    fields stay as they were. Records of other addresses are not touched. *)
Theorem scan_host_success addr now devs :
  (devs !! addr = None →
     scan_host addr true now devs !! addr =
       Some (Device addr None false false false (Some now) (Some now) true
                    now None))
  ∧ (∀ d, devs !! addr = Some d →
       scan_host addr true now devs !! addr =
         Some (Device (ip d) (hostname d) (required d) (vip d)
                      (from_known_hosts d)
                      (match first_seen d with
                       | None => Some now
                       | Some f => Some f
                       end)
                      (Some now) true
                      (created_at d) (seen_before_baseline d)))
  ∧ (∀ ip', ip' ≠ addr → scan_host addr true now devs !! ip' = devs !! ip').
Proof.
  split; [|split].
  - intros E. by rewrite scan_host_ok_unknown.
  - intros d E. rewrite (scan_host_ok_known _ _ _ d E).
    unfold mark_alive, set_online, set_last_seen, set_first_seen.
    destruct (first_seen d) eqn:Hf; simpl; by rewrite ?Hf.
  - intros ip' Hne. by apply scan_host_other.
Qed.

(** C7. A failed probe: for an address without a record the registry is
    left exactly as it was (no record is created); for an address with a
    record only [online] changes, to false, and [first_seen], [last_seen]
    and every other field keep their values. Records of other addresses
    are not touched. *)
Theorem scan_host_failure addr now devs :
  (devs !! addr = None → scan_host addr false now devs = devs)
  ∧ (∀ d, devs !! addr = Some d →
       scan_host addr false now devs !! addr =
         Some (Device (ip d) (hostname d) (required d) (vip d)
                      (from_known_hosts d) (first_seen d) (last_seen d) false
                      (created_at d) (seen_before_baseline d)))
  ∧ (∀ ip', ip' ≠ addr → scan_host addr false now devs !! ip' = devs !! ip').
Proof.
  split; [|split].
  - apply scan_host_fail_unknown.
  - intros d E. by rewrite (scan_host_fail_known _ _ _ d E).
  - intros ip' Hne. by apply scan_host_other.
Qed.

(** ** Eviction *)

Lemma foldl_delete_lookup (l : list N) (m : gmap N device) (i : N) :
  foldl (λ devs ip, delete ip devs) m l !! i =
    if decide (i ∈ l) then None else m !! i.
Proof.
  revert m. induction l as [|j l IH]; intros m.
  - rewrite decide_False; [done|by intros ?%elem_of_nil].
  - cbn [foldl]. rewrite IH. destruct (decide (i ∈ l)) as [Hl|Hl].
    + rewrite decide_True; [done|by right].
    + destruct (decide (i = j)) as [->|Hne].
      * rewrite decide_True; [|by left]. apply lookup_delete_eq.
      * rewrite decide_False; [by apply lookup_delete_ne|].
        intros [?|?]%elem_of_cons; done.
Qed.

Lemma elem_of_to_delete now (devs : gmap N device) (i : N) :
  i ∈ to_delete now devs ↔ ∃ d, devs !! i = Some d ∧ stale now d = true.
Proof.
  unfold to_delete. rewrite list_elem_of_fmap. split.
  - intros ([j d] & -> & [Hs Hin%elem_of_map_to_list]%list_elem_of_filter).
    by exists d.
  - intros (d & Hd & Hs). exists (i, d). split; [done|].
    apply list_elem_of_filter. split; [done|by apply elem_of_map_to_list].
Qed.

(** The eviction removes the records that pass the test, and no other. *)
Lemma evict_stale_lookup now (devs : gmap N device) (i : N) :
  evict_stale now devs !! i =
    match devs !! i with
    | Some d => if stale now d then None else Some d
    | None => None
    end.
Proof.
  unfold evict_stale. rewrite foldl_delete_lookup.
  case_decide as Hin.
  - apply elem_of_to_delete in Hin as (d & -> & ->). done.
  - destruct (devs !! i) as [d|] eqn:Hd; [|done].
    destruct (stale now d) eqn:Hs; [|done].
    exfalso. apply Hin, elem_of_to_delete. eauto.
Qed.

Lemma base_last_seen now d l :
  last_seen d = Some l → l ≠ 0 → base now d = l.
Proof.
  intros Hl Hne. unfold base, py_or, truthy. rewrite Hl.
  rewrite (proj2 (Z.eqb_neq l 0) Hne). cbn.
  by rewrite (proj2 (Z.eqb_neq l 0) Hne).
Qed.

Lemma base_clock_stamped now d :
  clock_stamped d → base now d = default (created_at d) (last_seen d).
Proof.
  intros [Hl Hc]. unfold base, py_or, truthy.
  destruct (last_seen d) as [l|].
  - destruct (Z.eqb_spec l 0) as [->|Hne]; [by destruct Hl|].
    cbn. by rewrite (proj2 (Z.eqb_neq l 0) Hne).
  - cbn. by rewrite (proj2 (Z.eqb_neq _ 0) Hc).
Qed.

(** On a reading [0] the two differ: [or] passes over it. *)
Example base_reading_zero :
  base 2000 (set_last_seen (Some 0) (new_dynamic 9 1000)) = 1000.
Proof. reflexivity. Qed.

Lemma stale_forgettable now d :
  clock_stamped d → stale now d = forgettable now OFFLINE_FORGET_SECONDS d.
Proof.
  intros Hd. unfold stale, forgettable. rewrite (base_clock_stamped _ _ Hd).
  by destruct (from_known_hosts d), (required d), (online d).
Qed.

Lemma stale_protected now d :
  required d = true ∨ from_known_hosts d = true → stale now d = false.
Proof.
  unfold stale. intros [->| ->]; [by rewrite orb_true_r|done].
Qed.

(** C4. The eviction at [now] removes exactly the records that are not
    from the static list, not required, offline, and whose [last_seen]
    ([created_at] when [last_seen] is unset) lies more than the forget
    threshold before [now]; every other record stays, unchanged. In
    particular a required record and a static record stay however long
    they have been offline. The stored clock readings are taken to be
    different from [0], the one reading that Python's [or] treats as
    unset. *)
Theorem evict_stale_exact now (devs : gmap N device) :
  map_Forall (λ _, clock_stamped) devs →
  (∀ ip, evict_stale now devs !! ip =
           match devs !! ip with
           | Some d =>
               if forgettable now OFFLINE_FORGET_SECONDS d then None else Some d
           | None => None
           end)
  ∧ (∀ ip d, devs !! ip = Some d →
       required d = true ∨ from_known_hosts d = true →
       evict_stale now devs !! ip = Some d).
Proof.
  intros Hclock. split.
  - intros i. rewrite evict_stale_lookup.
    destruct (devs !! i) as [d|] eqn:Hd; [|done].
    by rewrite (stale_forgettable now d (Hclock i d Hd)).
  - intros i d Hd Hp. rewrite evict_stale_lookup, Hd.
    by rewrite (stale_protected now d Hp).
Qed.

Lemma evict_stale_exact_witness :
  let devs : gmap N device :=
    <[ 5%N := seed 1000 5 (HostInfo "printer" true false) ]>
      (<[ 9%N := set_online false (new_dynamic 9 1010) ]>
         {[ 12%N := set_online false (new_dynamic 12 1900) ]}) in
  map_Forall (λ _, clock_stamped) devs
  ∧ evict_stale 2000 devs !! 5%N = devs !! 5%N
  ∧ evict_stale 2000 devs !! 9%N = None
  ∧ evict_stale 2000 devs !! 12%N = devs !! 12%N.
Proof.
  cbv zeta.
  assert (Hc : map_Forall (λ _, clock_stamped)
            (<[ 5%N := seed 1000 5 (HostInfo "printer" true false) ]>
               (<[ 9%N := set_online false (new_dynamic 9 1010) ]>
                  ({[ 12%N := set_online false (new_dynamic 12 1900) ]}
                     : gmap N device))))
    by (apply (bool_decide_unpack _); vm_compute; exact I).
  split; [exact Hc|].
  destruct (evict_stale_exact 2000 _ Hc) as [Hex _].
  rewrite !Hex. repeat split; reflexivity.
Defined.

(** ** Executions and the baseline *)

Lemma init_devices_lookup known now_init i :
  init_devices known now_init !! i = seed now_init i <$> known !! i.
Proof.
  unfold init_devices. rewrite map_lookup_imap. by destruct (known !! i).
Qed.

Lemma run_snoc st tr e : run st (tr ++ [e]) = step (run st tr) e.
Proof. unfold run. by rewrite foldl_app. Qed.

Lemma run_app st tr tr' : run st (tr ++ tr') = run (run st tr) tr'.
Proof. unfold run. by rewrite foldl_app. Qed.

Lemma run_probes outcomes st :
  run st ((λ o, Probe o.1.1 o.1.2 o.2) <$> outcomes) =
    {| devices := scan_hosts outcomes (devices st);
       baseline_done := baseline_done st;
       first_iteration := first_iteration st |}.
Proof.
  revert st. induction outcomes as [|o outcomes IH]; intros st.
  - by destruct st.
  - cbn [fmap list_fmap run foldl]. fold (run (step st (Probe o.1.1 o.1.2 o.2))).
    cbn [run] in IH. by rewrite IH.
Qed.

(** The iterations of [scan_loop] are executions: what holds of every
    [run] holds of the loop. *)
Lemma scan_loop_run sweeps st :
  scan_loop sweeps st = run st (concat (sweep_events <$> sweeps)).
Proof.
  revert st. induction sweeps as [|[outcomes now] sweeps IH]; intros st; [done|].
  cbn [scan_loop foldl fmap list_fmap concat].
  fold (scan_loop sweeps (scan_loop_iteration (outcomes, now) st)).
  rewrite IH, run_app. f_equal.
  unfold sweep_events. cbn [fst snd]. by rewrite run_snoc, run_probes.
Qed.

Lemma stale_set_seen_before_baseline now v d :
  stale now (set_seen_before_baseline v d) = stale now d.
Proof. reflexivity. Qed.

(** The two flags after one step. *)
Lemma step_baseline_done st e :
  baseline_done (step st e) =
    baseline_done st || (is_EndSweep e && first_iteration st).
Proof.
  destruct e as [i ok now|now]; simpl.
  - by rewrite orb_false_r.
  - unfold mark_baseline. by destruct st as [devs [] []].
Qed.

Lemma step_first_iteration st e :
  first_iteration (step st e) =
    first_iteration st && negb (is_EndSweep e && negb (baseline_done st)).
Proof.
  destruct e as [i ok now|now]; simpl.
  - by rewrite andb_true_r.
  - unfold mark_baseline. by destruct st as [devs [] []].
Qed.

(** From the start-up state, [first_iteration] is the negation of
    [baseline_done], and [baseline_done] tells whether a sweep has ended. *)
Lemma run_flags known now_init tr :
  let st := run (init known now_init) tr in
  baseline_done st = existsb is_EndSweep tr
  ∧ first_iteration st = negb (existsb is_EndSweep tr).
Proof.
  induction tr as [|e tr IH] using rev_ind; [done|].
  cbv zeta in *. destruct IH as [IHb IHf].
  rewrite run_snoc, step_baseline_done, step_first_iteration, IHb, IHf.
  rewrite existsb_app. simpl. rewrite orb_false_r.
  destruct (existsb is_EndSweep tr), (is_EndSweep e); done.
Qed.

(** The records after the block that ends a sweep. *)
Lemma bookkeeping_lookup now st i :
  devices (bookkeeping now st) !! i =
    match devices st !! i with
    | Some d =>
        if stale now d then None
        else Some (if first_iteration st && negb (baseline_done st)
                   then set_seen_before_baseline true d else d)
    | None => None
    end.
Proof.
  unfold bookkeeping, mark_baseline. cbn [devices].
  rewrite evict_stale_lookup.
  destruct (first_iteration st && negb (baseline_done st)); cbn [devices].
  - rewrite lookup_fmap. destruct (devices st !! i) as [d|]; [|done].
    cbn. by rewrite stale_set_seen_before_baseline.
  - done.
Qed.

(** X3. Every registry that an execution builds from clock readings other
    than [0] holds only records whose stored readings are not [0]: the
    condition under which the eviction is characterised above holds in
    every such state. *)
Theorem reachable_clock_stamped known now_init tr :
  now_init ≠ 0 →
  forallb reading_nonzero tr = true →
  map_Forall (λ _, clock_stamped) (devices (run (init known now_init) tr)).
Proof.
  intros H0. induction tr as [|e tr IH] using rev_ind; intros Hnz i d.
  - cbn. rewrite init_devices_lookup.
    destruct (known !! i); [|done]. by intros [= <-].
  - rewrite forallb_app in Hnz. apply andb_true_iff in Hnz as [Hnz He].
    cbn in He. rewrite andb_true_r in He. specialize (IH Hnz).
    rewrite run_snoc. destruct e as [j ok now|now].
    + cbn [step devices]. rewrite scan_host_lookup.
      case_decide as E; [subst j|by apply IH].
      destruct (devices _ !! i) as [d0|] eqn:Hd0.
      * pose proof (IH i d0 Hd0) as [Hl Hc].
        destruct ok; intros [= <-]; [|done].
        cbn in He. apply negb_true_iff, Z.eqb_neq in He.
        unfold mark_alive. split; [|by destruct (first_seen d0)].
        destruct (first_seen d0); cbn; congruence.
      * destruct ok; intros [= <-]. cbn in He.
        apply negb_true_iff, Z.eqb_neq in He. split; cbn; congruence.
    + cbn [step]. rewrite bookkeeping_lookup.
      destruct (devices _ !! i) as [d0|] eqn:Hd0; [|done].
      destruct (stale now d0); [done|]. intros [= <-].
      pose proof (IH i d0 Hd0). by destruct (_ && _).
Qed.

Lemma reachable_clock_stamped_witness :
  map_Forall (λ _, clock_stamped)
    (devices (run (init {[ 5%N := HostInfo "printer" true false ]} 1000)
                  [Probe 5%N false 1010; Probe 9%N true 1011; EndSweep 1020])).
Proof.
  apply (reachable_clock_stamped
           {[ 5%N := HostInfo "printer" true false ]} 1000
           [Probe 5%N false 1010; Probe 9%N true 1011; EndSweep 1020]);
    [discriminate|reflexivity].
Defined.

(** A step taken after the first iteration marks nothing: a record that is
    marked after the step was there, marked, before it. *)
Lemma step_marks_nothing st e i d' :
  first_iteration st = false →
  devices (step st e) !! i = Some d' →
  seen_before_baseline d' = Some true →
  ∃ d, devices st !! i = Some d ∧ seen_before_baseline d = Some true.
Proof.
  intros Hfi Hd' Hm. destruct e as [j ok now|now].
  - cbn [step devices] in Hd'. rewrite scan_host_lookup in Hd'.
    case_decide as E; [subst j|eauto].
    destruct (devices st !! i) as [d|] eqn:Hd.
    + exists d. split; [done|]. destruct ok; simplify_eq; [|done].
      revert Hm. unfold mark_alive. by destruct (first_seen d).
    + by destruct ok; simplify_eq.
  - cbn [step] in Hd'. rewrite bookkeeping_lookup, Hfi in Hd'.
    destruct (devices st !! i) as [d|] eqn:Hd; [|done].
    destruct (stale now d); simplify_eq. eauto.
Qed.

(** C2. The flag [baseline_done] is false at start-up and as long as no
    sweep has ended, and true in every state from the end of the first
    sweep on: it changes once, there, and never goes back. The end of the
    first sweep marks every record that is in the registry at that moment:
    the registry it leaves holds, for each of these records that is not
    stale, the same record with [seen_before_baseline] true, and nothing
    else, so every record of it has [seen_before_baseline] true. No later
    step, probe or end of sweep, marks a record: a record marked after the
    step was already marked before it. *)
Theorem baseline_once known now_init :
  (∀ tr, baseline_done (run (init known now_init) tr) = existsb is_EndSweep tr)
  ∧ (∀ tr now, existsb is_EndSweep tr = false →
       let before := run (init known now_init) tr in
       let st := run (init known now_init) (tr ++ [EndSweep now]) in
       baseline_done before = false
       ∧ baseline_done st = true
       ∧ (∀ ip, devices st !! ip =
                  match devices before !! ip with
                  | Some d =>
                      if stale now d then None
                      else Some (set_seen_before_baseline true d)
                  | None => None
                  end)
       ∧ (∀ ip d, devices before !! ip = Some d → stale now d = false →
            devices st !! ip = Some (set_seen_before_baseline true d))
       ∧ (∀ ip d, devices st !! ip = Some d →
            seen_before_baseline d = Some true))
  ∧ (∀ tr tr', baseline_done (run (init known now_init) tr) = true →
       baseline_done (run (init known now_init) (tr ++ tr')) = true)
  ∧ (∀ tr e ip d',
       let st := run (init known now_init) tr in
       baseline_done st = true →
       devices (step st e) !! ip = Some d' →
       seen_before_baseline d' = Some true →
       ∃ d, devices st !! ip = Some d ∧ seen_before_baseline d = Some true).
Proof.
  split; [|split; [|split]].
  - intros tr. apply run_flags.
  - intros tr now Hno. cbv zeta.
    destruct (run_flags known now_init tr) as [Hb Hf].
    cbv zeta in Hb, Hf. rewrite Hno in Hb, Hf.
    assert (Hlookup : ∀ i,
              devices (run (init known now_init) (tr ++ [EndSweep now])) !! i =
                match devices (run (init known now_init) tr) !! i with
                | Some d =>
                    if stale now d then None
                    else Some (set_seen_before_baseline true d)
                | None => None
                end).
    { intros i. rewrite run_snoc. cbn [step].
      by rewrite bookkeeping_lookup, Hb, Hf. }
    split; [done|]. split; [|split; [done|split]].
    + rewrite (proj1 (run_flags known now_init _)), existsb_app.
      cbn. by rewrite orb_true_r.
    + intros i d Hd Hs. by rewrite Hlookup, Hd, Hs.
    + intros i d. rewrite Hlookup.
      destruct (devices _ !! i) as [d0|]; [|done].
      destruct (stale now d0); [done|]. by intros [= <-].
  - intros tr tr'. rewrite !(proj1 (run_flags known now_init _)), existsb_app.
    by intros ->.
  - intros tr e i d'. cbv zeta. intros Hb.
    apply step_marks_nothing.
    destruct (run_flags known now_init tr) as [Hb' Hf]. cbv zeta in Hb', Hf.
    rewrite Hf, <- Hb', Hb. done.
Qed.

Lemma baseline_once_witness :
  let known : gmap N host_info := {[ 7%N := HostInfo "nas" true false ]} in
  let before := run (init known 1000) [Probe 9%N true 1010] in
  let st := run (init known 1000) ([Probe 9%N true 1010] ++ [EndSweep 1020]) in
  baseline_done before = false
  ∧ baseline_done st = true
  ∧ devices st !! 9%N = Some (set_seen_before_baseline true (new_dynamic 9 1010))
  ∧ devices st !! 7%N =
      Some (set_seen_before_baseline true
              (seed 1000 7 (HostInfo "nas" true false))).
Proof.
  cbv zeta.
  destruct (baseline_once {[ 7%N := HostInfo "nas" true false ]} 1000)
    as (_ & Hfirst & _).
  destruct (Hfirst [Probe 9%N true 1010] 1020 eq_refl)
    as (Hb0 & Hb1 & _ & Hkept & _).
  split; [exact Hb0|]. split; [exact Hb1|]. split.
  - apply Hkept; reflexivity.
  - apply Hkept; reflexivity.
Defined.

(** ** The view *)

Global Instance key_le_total : Total key_le.
Proof. intros a b. unfold key_le. lia. Qed.

Global Instance key_le_trans : Transitive key_le.
Proof. intros a b c. unfold key_le. lia. Qed.

Lemma elem_of_collect now st r :
  r ∈ collect now st ↔
  ∃ i d, devices st !! i = Some d ∧ visible d = true
         ∧ r = make_row (baseline_done st) now i d.
Proof.
  unfold collect. rewrite list_elem_of_omap. split.
  - intros ([i d] & Hin%elem_of_map_to_list & Hr). cbn in Hr.
    destruct (visible d) eqn:Hv; [|done]. exists i, d. by simplify_eq.
  - intros (i & d & Hd & Hv & ->). exists (i, d).
    split; [by apply elem_of_map_to_list|]. cbn. by rewrite Hv.
Qed.

Lemma elem_of_sorted_rows now st r :
  r ∈ sorted_rows now st ↔ r ∈ collect now st.
Proof. unfold sorted_rows. by rewrite merge_sort_Permutation. Qed.

(** The entries of the response: one per record that passes the filter. *)
Lemma elem_of_api_devices now st p :
  p ∈ api_devices now st ↔
  ∃ i d, devices st !! i = Some d ∧ visible d = true
         ∧ p = fields (make_row (baseline_done st) now i d).
Proof.
  unfold api_devices. rewrite list_elem_of_fmap. split.
  - intros (r & -> & (i & d & Hd & Hv & ->)%elem_of_sorted_rows%elem_of_collect).
    by exists i, d.
  - intros (i & d & Hd & Hv & ->). eexists. split; [reflexivity|].
    apply elem_of_sorted_rows, elem_of_collect. by exists i, d.
Qed.

Lemma listed_api_devices now st addr :
  listed addr (api_devices now st) ↔
  ∃ d, devices st !! addr = Some d ∧ visible d = true.
Proof.
  unfold listed. rewrite list_elem_of_fmap. split.
  - intros (p & -> & (i & d & Hd & Hv & ->)%elem_of_api_devices). by exists d.
  - intros (d & Hd & Hv). eexists. split; [|apply elem_of_api_devices; eauto].
    done.
Qed.

(** The filter, read as one condition. *)
Lemma visible_iff d :
  visible d = true ↔
  online d = true
  ∨ (vip d = false ∧ required d = true ∧ from_known_hosts d = true).
Proof.
  unfold visible.
  destruct (online d), (vip d), (required d), (from_known_hosts d); cbn;
    intuition congruence.
Qed.

(** C1, as the code has it. For every record of the registry: its address
    is in the view if and only if the record is online, or it is required,
    from the static list and not a VIP. So every online record is in the
    view; an offline record that is not required or not static is not; an
    offline VIP is not, even when it is required and static; and an
    offline, required, static record that is not a VIP is. *)
Theorem visibility_filter now st addr d :
  devices st !! addr = Some d →
  (listed addr (api_devices now st) ↔
     online d = true
     ∨ (vip d = false ∧ required d = true ∧ from_known_hosts d = true))
  ∧ (online d = true → listed addr (api_devices now st))
  ∧ (online d = false → required d = false ∨ from_known_hosts d = false →
       ¬ listed addr (api_devices now st))
  ∧ (online d = false → vip d = true → ¬ listed addr (api_devices now st))
  ∧ (online d = false → required d = true → from_known_hosts d = true →
       vip d = false → listed addr (api_devices now st)).
Proof.
  intros Hd.
  assert (Hiff : listed addr (api_devices now st) ↔ visible d = true).
  { rewrite listed_api_devices. split; [|by eauto].
    intros (d' & Hd' & Hv). by simplify_eq. }
  rewrite Hiff, visible_iff. intuition congruence.
Qed.

Lemma visibility_filter_witness :
  let st := init {[ 7%N := HostInfo "nas" true false ]} 1000 in
  ∃ d, devices st !! 7%N = Some d
       ∧ online d = false
       ∧ listed 7%N (api_devices 1010 st).
Proof.
  cbv zeta. eexists. split; [reflexivity|].
  split; [reflexivity|].
  refine (proj2 (proj2 (proj2 (proj2
    (visibility_filter 1010 (init {[ 7%N := HostInfo "nas" true false ]} 1000)
       7%N _ eq_refl)))) _ _ _ _); reflexivity.
Defined.

(** C1, as the specification words it, fails on a VIP: a static, required
    VIP that is offline (the start-up record of the known-hosts line
    [10.0.0.5,printer,true,true]) is required and from the static list, and
    is not in the view. *)
Lemma offline_required_static_vip_hidden :
  let st := init {[ 5%N := HostInfo "printer" true true ]} 1000 in
  ∃ d, devices st !! 5%N = Some d
       ∧ online d = false
       ∧ required d = true ∧ from_known_hosts d = true
       ∧ ¬ listed 5%N (api_devices 1010 st).
Proof.
  cbv zeta. eexists. split; [reflexivity|]. repeat split.
  rewrite listed_api_devices. intros (d & Hd & Hv).
  vm_compute in Hd. by simplify_eq.
Qed.

(** ** New devices *)

Lemma compute_is_new_iff b now d :
  compute_is_new b now d = true ↔
  online d = true
  ∧ (∃ f, first_seen d = Some f ∧ now - f ≤ 300)
  ∧ b = true
  ∧ seen_before d = false.
Proof.
  unfold compute_is_new, compute_age.
  rewrite !andb_true_iff, negb_true_iff, bool_decide_eq_true.
  destruct (first_seen d) as [f|].
  - rewrite Z.leb_le. change NEW_DEVICE_WINDOW_SECONDS with 300.
    split.
    + intros ((((? & _) & ?) & ?) & ?). eauto 10.
    + intros (? & (f' & [= <-] & ?) & ? & ?). done.
  - split.
    + intros (_ & [=]).
    + intros (_ & (f & [=] & _) & _).
Qed.

(** C3. For every entry of a view built at [now], with [d] the record it
    was built from: [is_new] is true if and only if [d] is online, its
    [first_seen] is set, the baseline flag is set, [seen_before_baseline]
    is not true on [d], and [now - first_seen] is at most 300 seconds. So
    [is_new] is false on a record marked [seen_before_baseline], whatever
    its age, and false once more than 300 seconds have passed since
    [first_seen], also while the record stays online. *)
Theorem is_new_spec now st p :
  p ∈ api_devices now st →
  ∃ d, devices st !! p_ip p = Some d
    ∧ (is_new p = true ↔
         online d = true
         ∧ (∃ f, first_seen d = Some f ∧ now - f ≤ 300)
         ∧ baseline_done st = true
         ∧ seen_before d = false)
    ∧ (seen_before_baseline d = Some true → is_new p = false)
    ∧ (∀ f, first_seen d = Some f → 300 < now - f → is_new p = false).
Proof.
  intros (i & d & Hd & Hv & ->)%elem_of_api_devices. cbn.
  exists d. split; [done|].
  pose proof (compute_is_new_iff (baseline_done st) now d) as Hiff.
  split; [done|]. split.
  - intros Hm. apply not_true_is_false. rewrite Hiff.
    intros (_ & _ & _ & Hs). unfold seen_before in Hs. by rewrite Hm in Hs.
  - intros f Hf Hage. apply not_true_is_false. rewrite Hiff.
    intros (_ & (f' & Hf' & Hle) & _). simplify_eq. lia.
Qed.

(** The scenario of a device that answers for the first time ten seconds
    after the baseline: new up to 300 seconds after its first answer, no
    longer new after that, and online all along. *)
Example new_device_scenario :
  let st := run (init ∅ 900) [EndSweep 1000; Probe 9%N true 1010] in
  api_devices 1310 st =
    [Payload 9 None false false true (Some 300) (Some 300) true]
  ∧ api_devices 1311 st =
    [Payload 9 None false false true (Some 301) (Some 301) false].
Proof. split; vm_compute; reflexivity. Qed.

Lemma is_new_spec_witness :
  let st := run (init ∅ 900) [EndSweep 1000; Probe 9%N true 1010] in
  let p := Payload 9 None false false true (Some 300) (Some 300) true in
  p ∈ api_devices 1310 st
  ∧ ∃ d, devices st !! 9%N = Some d
      ∧ (is_new p = true ↔
           online d = true
           ∧ (∃ f, first_seen d = Some f ∧ 1310 - f ≤ 300)
           ∧ baseline_done st = true
           ∧ seen_before d = false).
Proof.
  cbv zeta.
  assert (Hin : Payload 9 None false false true (Some 300) (Some 300) true
                ∈ api_devices 1310
                    (run (init ∅ 900) [EndSweep 1000; Probe 9%N true 1010])).
  { apply list_elem_of_In. vm_compute. left. reflexivity. }
  split; [exact Hin|].
  destruct (is_new_spec _ _ _ Hin) as (d & Hd & Hiff & _).
  exists d. split; [exact Hd|exact Hiff].
Defined.

(** ** Sort order *)

Lemma collect_ips_sublist now st :
  (p_ip ∘ fields) <$> collect now st `sublist_of` (map_to_list (devices st)).*1.
Proof.
  unfold collect. induction (map_to_list (devices st)) as [|[i d] l IH]; [done|].
  cbn. destruct (visible d); cbn.
  - by apply sublist_skip.
  - by apply sublist_cons.
Qed.

(** No two rows carry the same address. *)
Lemma NoDup_collect_ips now st : NoDup ((p_ip ∘ fields) <$> collect now st).
Proof.
  eapply sublist_NoDup; [|apply collect_ips_sublist].
  apply NoDup_fst_map_to_list.
Qed.

Lemma NoDup_sorted_rows_ips now st :
  NoDup ((p_ip ∘ fields) <$> sorted_rows now st).
Proof.
  unfold sorted_rows. rewrite merge_sort_Permutation. apply NoDup_collect_ips.
Qed.

Lemma StronglySorted_key_lt (l : list row) :
  StronglySorted key_le l → NoDup ((p_ip ∘ fields) <$> l) →
  StronglySorted key_lt l.
Proof.
  induction 1 as [|r l Hl IH Hr]; intros Hnd; [constructor|].
  cbn in Hnd. apply NoDup_cons in Hnd as [Hnotin Hnd].
  constructor; [by apply IH|].
  apply Forall_forall. intros r' Hin.
  rewrite Forall_forall in Hr. specialize (Hr r' Hin).
  assert (p_ip (fields r) ≠ p_ip (fields r')) as Hne.
  { intros E. apply Hnotin. apply list_elem_of_fmap. exists r'. by split. }
  unfold key_le in Hr. unfold key_lt. lia.
Qed.

Lemma StronglySorted_fmap_elem_of {A B} (f : A → B)
    (R1 : relation A) (R2 : relation B) (l : list A) :
  (∀ x y, x ∈ l → y ∈ l → R1 x y → R2 (f x) (f y)) →
  StronglySorted R1 l → StronglySorted R2 (f <$> l).
Proof.
  intros HR Hl. induction Hl as [|x l Hl IH Hx]; [constructor|].
  cbn. constructor.
  - apply IH. intros y z Hy Hz. apply HR; by right.
  - apply Forall_fmap, Forall_forall. intros y Hy.
    rewrite Forall_forall in Hx. apply HR; [by left|by right|by apply Hx].
Qed.

(** C8. Every record that passes the filter has a row in the view, built
    from it by [make_row], and the view has no other rows. The group of the
    row is 0 if the record is from the static list and required, else 1 if
    it is a VIP and online, else 2 if the entry is new, else 3. The sorted
    rows ascend strictly by group and, within a group, by numeric address.
    The emitted list is the sorted rows with the group taken out of each:
    it holds the entry of every record that passes the filter, and its
    entries ascend in the same order. *)
Theorem view_sorted now st :
  (∀ i d, devices st !! i = Some d → visible d = true →
     make_row (baseline_done st) now i d ∈ sorted_rows now st
     ∧ fields (make_row (baseline_done st) now i d) ∈ api_devices now st
     ∧ group (make_row (baseline_done st) now i d) =
         (if from_known_hosts d && required d then 0
          else if vip d && online d then 1
          else if compute_is_new (baseline_done st) now d then 2
          else 3))
  ∧ (∀ r, r ∈ sorted_rows now st →
       ∃ d, devices st !! p_ip (fields r) = Some d
          ∧ visible d = true
          ∧ r = make_row (baseline_done st) now (p_ip (fields r)) d
          ∧ group r = (if from_known_hosts d && required d then 0
                       else if vip d && online d then 1
                       else if is_new (fields r) then 2
                       else 3))
  ∧ sorted_rows now st ≡ₚ collect now st
  ∧ StronglySorted key_lt (sorted_rows now st)
  ∧ api_devices now st = fields <$> sorted_rows now st
  ∧ StronglySorted (payload_lt st) (api_devices now st).
Proof.
  assert (Hs : StronglySorted key_lt (sorted_rows now st)).
  { apply StronglySorted_key_lt; [|apply NoDup_sorted_rows_ips].
    apply (StronglySorted_merge_sort key_le). }
  split; [|split; [|split; [|split; [|split]]]].
  - intros i d Hd Hv. split; [|split; [|done]].
    + apply elem_of_sorted_rows, elem_of_collect. by exists i, d.
    + apply elem_of_api_devices. by exists i, d.
  - intros r (i & d & Hd & Hv & ->)%elem_of_sorted_rows%elem_of_collect.
    by exists d.
  - apply merge_sort_Permutation.
  - exact Hs.
  - reflexivity.
  - unfold api_devices. revert Hs. apply StronglySorted_fmap_elem_of.
    intros r r' (i & d & Hd & _ & ->)%elem_of_sorted_rows%elem_of_collect
                (i' & d' & Hd' & _ & ->)%elem_of_sorted_rows%elem_of_collect.
    unfold key_lt, payload_lt, payload_group. cbn. by rewrite Hd, Hd'.
Qed.

Lemma view_sorted_witness :
  let st := run (init {[ 7%N := HostInfo "nas" true false ]} 900)
                [Probe 3%N true 950; EndSweep 1000; Probe 9%N true 1010] in
  make_row true 1300 9 (new_dynamic 9 1010) ∈ sorted_rows 1300 st
  ∧ group (make_row true 1300 9 (new_dynamic 9 1010)) = 2
  ∧ api_devices 1300 st =
      [ Payload 7 (Some "nas") true false false None None false;
        Payload 9 None false false true (Some 290) (Some 290) true;
        Payload 3 None false false true (Some 350) (Some 350) false ].
Proof.
  cbv zeta.
  destruct (view_sorted 1300
              (run (init {[ 7%N := HostInfo "nas" true false ]} 900)
                   [Probe 3%N true 950; EndSweep 1000; Probe 9%N true 1010]))
    as (Hrow & _ & _ & _ & Hout & _).
  destruct (Hrow 9%N (new_dynamic 9 1010)) as (Hin & _ & Hg);
    [vm_compute; reflexivity|reflexivity|].
  split; [exact Hin|]. split; [exact Hg|].
  rewrite Hout. vm_compute. reflexivity.
Defined.

(** The result of the sort does not depend on the algorithm: any
    arrangement of the collected rows that ascends in the key order is
    [sorted_rows]. *)
Lemma sorted_rows_unique now st (l : list row) :
  l ≡ₚ collect now st → StronglySorted key_le l → l = sorted_rows now st.
Proof.
  intros Hp Hl.
  assert (NoDup ((p_ip ∘ fields) <$> l)) as Hnd.
  { rewrite (fmap_Permutation (p_ip ∘ fields) _ _ Hp). apply NoDup_collect_ips. }
  apply (StronglySorted_unique_strong key_lt).
  - intros r r' _ _ H1 H2. exfalso. unfold key_lt in H1, H2. lia.
  - by apply StronglySorted_key_lt.
  - apply StronglySorted_key_lt; [|apply NoDup_sorted_rows_ips].
    apply (StronglySorted_merge_sort key_le).
  - unfold sorted_rows. by rewrite merge_sort_Permutation.
Qed.

(** ** The view before the first sweep *)

(** As long as no sweep has ended, no entry of a view is new. *)
Lemma no_new_before_baseline known now_init tr now p :
  existsb is_EndSweep tr = false →
  p ∈ api_devices now (run (init known now_init) tr) →
  is_new p = false.
Proof.
  intros Hno (i & d & _ & _ & ->)%elem_of_api_devices. cbn.
  rewrite (proj1 (run_flags known now_init tr)), Hno.
  unfold compute_is_new. by rewrite andb_false_r.
Qed.


Lemma key_lt_py_agree ipv6 a b :
  (group a = group b → ipv6 (p_ip (fields a)) = ipv6 (p_ip (fields b))) →
  p_ip (fields a) ≠ p_ip (fields b) →
  key_lt_py ipv6 a b = Some (bool_decide (key_lt a b)).
Proof.
  intros Hfam Hne. unfold key_lt_py, key_lt.
  destruct (Z.eqb_spec (group a) (group b)) as [Hg|Hg].
  - rewrite (proj2 (N.eqb_neq _ _) Hne), (Hfam Hg), eqb_reflx.
    f_equal. destruct (N.ltb_spec (p_ip (fields a)) (p_ip (fields b)));
      [rewrite bool_decide_true|rewrite bool_decide_false]; lia.
  - f_equal. destruct (Z.ltb_spec (group a) (group b));
      [rewrite bool_decide_true|rewrite bool_decide_false]; lia.
Qed.

Lemma insert_py_sorted ipv6 x l :
  (∀ y, y ∈ l → group x = group y →
        ipv6 (p_ip (fields x)) = ipv6 (p_ip (fields y))) →
  (∀ y, y ∈ l → p_ip (fields x) ≠ p_ip (fields y)) →
  StronglySorted key_le l →
  ∃ l', insert_py ipv6 x l = Some l' ∧ l' ≡ₚ x :: l ∧ StronglySorted key_le l'.
Proof.
  induction l as [|y l IH]; intros Hfam Hne Hs.
  - exists [x]. repeat split; [done|]. by repeat constructor.
  - apply StronglySorted_inv in Hs as [Hs Hy].
    cbn [insert_py].
    rewrite (key_lt_py_agree ipv6 x y) by (first [apply Hfam|apply Hne]; by left).
    destruct (decide (key_lt x y)) as [Hlt|Hnlt].
    + rewrite bool_decide_true by done. eexists. split; [done|]. split; [done|].
      constructor; [by constructor|]. constructor.
      * unfold key_lt in Hlt. unfold key_le. lia.
      * eapply Forall_impl; [exact Hy|]. intros z Hz.
        unfold key_lt in Hlt. unfold key_le in *. lia.
    + rewrite bool_decide_false by done.
      destruct IH as (l' & -> & Hp & Hs').
      { intros z Hz. apply Hfam. by right. }
      { intros z Hz. apply Hne. by right. }
      { done. }
      exists (y :: l'). split; [done|]. split.
      * rewrite Hp. apply perm_swap.
      * constructor; [done|]. rewrite Hp. constructor; [|done].
        assert (p_ip (fields x) ≠ p_ip (fields y)) by (apply Hne; by left).
        unfold key_lt in Hnlt. unfold key_le. lia.
Qed.

Lemma sort_py_sorted ipv6 l :
  one_family_per_group ipv6 l →
  NoDup ((p_ip ∘ fields) <$> l) →
  ∃ l', sort_py ipv6 l = Some l' ∧ l' ≡ₚ l ∧ StronglySorted key_le l'.
Proof.
  induction l as [|x l IH]; intros Hfam Hnd.
  - exists []. repeat split; [done|constructor].
  - cbn in Hnd. apply NoDup_cons in Hnd as [Hx Hnd].
    destruct IH as (l0 & Hl0 & Hp0 & Hs0); [|done|].
    { intros a b Ha Hb. apply Hfam; by right. }
    cbn [sort_py]. rewrite Hl0. cbn.
    destruct (insert_py_sorted ipv6 x l0) as (l' & Hl' & Hp' & Hs'); [| |done|].
    + intros y Hy. rewrite Hp0 in Hy. apply Hfam; [by left|by right].
    + intros y Hy E. rewrite Hp0 in Hy. apply Hx.
      apply list_elem_of_fmap. by exists y.
    + exists l'. split; [done|]. split; [|done]. by rewrite Hp', Hp0.
Qed.

(** Where no group mixes the two families, the sort does not raise and the
    handler returns [api_devices]. *)
Lemma api_devices_response_Some ipv6 now st :
  one_family_per_group ipv6 (collect now st) →
  api_devices_response ipv6 now st = Some (api_devices now st).
Proof.
  intros Hfam.
  destruct (sort_py_sorted ipv6 (collect now st) Hfam (NoDup_collect_ips now st))
    as (l & Hl & Hp & Hs).
  unfold api_devices_response, api_devices. rewrite Hl.
  by rewrite (sorted_rows_unique now st l Hp Hs).
Qed.

Lemma key_lt_py_Some ipv6 a b r :
  key_lt_py ipv6 a b = Some r →
  p_ip (fields a) ≠ p_ip (fields b) →
  group a = group b →
  ipv6 (p_ip (fields a)) = ipv6 (p_ip (fields b)).
Proof.
  unfold key_lt_py. intros H Hne Hg.
  rewrite (proj2 (Z.eqb_eq _ _) Hg), (proj2 (N.eqb_neq _ _) Hne) in H.
  destruct (eqb _ _) eqn:E; [by apply eqb_prop|done].
Qed.

Lemma insert_py_Some ipv6 x l l' :
  insert_py ipv6 x l = Some l' →
  one_family_per_group ipv6 l →
  (∀ y, y ∈ l → p_ip (fields x) ≠ p_ip (fields y)) →
  StronglySorted key_le l →
  ∀ y, y ∈ l → group x = group y →
       ipv6 (p_ip (fields x)) = ipv6 (p_ip (fields y)).
Proof.
  revert l'. induction l as [|y l IH]; intros l' Hins Hfam Hne Hs z Hz Hg.
  { by apply elem_of_nil in Hz. }
  apply StronglySorted_inv in Hs as [Hs Hy]. cbn [insert_py] in Hins.
  destruct (key_lt_py ipv6 x y) as [[]|] eqn:Hc; [| |done].
  - apply elem_of_cons in Hz as [->|Hz].
    + apply (key_lt_py_Some ipv6 x y true Hc); [apply Hne; by left|done].
    + rewrite Forall_forall in Hy. specialize (Hy z Hz).
      assert (p_ip (fields x) ≠ p_ip (fields y)) as Hxy by (apply Hne; by left).
      destruct (decide (group x = group y)) as [Hgy|Hgy].
      * rewrite (key_lt_py_Some ipv6 x y true Hc Hxy Hgy).
        apply Hfam; [by left|by right|congruence].
      * exfalso. unfold key_lt_py in Hc.
        rewrite (proj2 (Z.eqb_neq _ _) Hgy) in Hc. injection Hc as Hlt.
        apply Z.ltb_lt in Hlt. unfold key_le in Hy. lia.
  - apply elem_of_cons in Hz as [->|Hz].
    + apply (key_lt_py_Some ipv6 x y false Hc); [apply Hne; by left|done].
    + destruct (insert_py ipv6 x l) as [l0|] eqn:Hl0; [|done].
      apply (IH l0); try done.
      * intros a b Ha Hb. apply Hfam; by right.
      * intros w Hw. apply Hne. by right.
Qed.

Lemma sort_py_Some ipv6 l l' :
  NoDup ((p_ip ∘ fields) <$> l) →
  sort_py ipv6 l = Some l' → one_family_per_group ipv6 l.
Proof.
  revert l'. induction l as [|x l IH]; intros l' Hnd Hsort.
  { intros a b Ha. by apply elem_of_nil in Ha. }
  cbn in Hnd. apply NoDup_cons in Hnd as [Hx Hnd].
  cbn [sort_py] in Hsort.
  destruct (sort_py ipv6 l) as [l0|] eqn:Hl0; [|done]. cbn in Hsort.
  pose proof (IH l0 Hnd eq_refl) as Hfam.
  destruct (sort_py_sorted ipv6 l Hfam Hnd) as (l1 & Hl1 & Hp & Hs).
  rewrite Hl0 in Hl1. injection Hl1 as <-.
  assert (Hxl : ∀ y, y ∈ l → group x = group y →
                     ipv6 (p_ip (fields x)) = ipv6 (p_ip (fields y))).
  { intros y Hy. rewrite <- Hp in Hy.
    apply (insert_py_Some ipv6 x l0 l' Hsort); [| |done..].
    - intros a b Ha Hb. rewrite Hp in Ha, Hb. by apply Hfam.
    - intros w Hw E. rewrite Hp in Hw. apply Hx.
      apply list_elem_of_fmap. by exists w. }
  intros a b [->|Ha]%elem_of_cons [->|Hb]%elem_of_cons Hg; try done.
  - by apply Hxl.
  - symmetry. by apply Hxl.
  - by apply Hfam.
Qed.

(** The handler fails exactly when two rows of one group belong to
    addresses of different families. *)
Lemma api_devices_response_None ipv6 now st :
  api_devices_response ipv6 now st = None ↔
  ¬ one_family_per_group ipv6 (collect now st).
Proof.
  split.
  - intros Hnone Hfam.
    by rewrite (api_devices_response_Some ipv6 now st Hfam) in Hnone.
  - intros Hmixed. unfold api_devices_response.
    destruct (sort_py ipv6 (collect now st)) as [l|] eqn:Hl; [|done].
    destruct Hmixed.
    by apply (sort_py_Some ipv6 _ l (NoDup_collect_ips now st)).
Qed.




(** ** Timestamps of online records *)

Lemma seed_well_stamped now_init i info : well_stamped (seed now_init i info).
Proof. split; cbn; [done|by eauto]. Qed.

Lemma new_dynamic_well_stamped i now : well_stamped (new_dynamic i now).
Proof. split; cbn; [by eauto|done]. Qed.

Lemma mark_alive_well_stamped now d : well_stamped (mark_alive now d).
Proof.
  unfold mark_alive. split.
  - intros _. destruct (first_seen d) eqn:Hf; cbn; rewrite ?Hf; by eauto.
  - by destruct (first_seen d).
Qed.

Lemma set_online_false_well_stamped d :
  well_stamped d → well_stamped (set_online false d).
Proof. intros [_ H]. split; cbn; [done|]. intros Hl. by destruct (H Hl) as (? & _ & ?). Qed.

Lemma set_seen_before_baseline_well_stamped v d :
  well_stamped d → well_stamped (set_seen_before_baseline v d).
Proof. done. Qed.

(** Each operation on the registry keeps every record well stamped. *)
Lemma scan_host_well_stamped i ok now devs :
  map_Forall (λ _, well_stamped) devs →
  map_Forall (λ _, well_stamped) (scan_host i ok now devs).
Proof.
  intros H j d. rewrite scan_host_lookup. case_decide as E; [|by apply H].
  destruct (devs !! i) as [d0|] eqn:Hd0.
  - destruct ok; intros [= <-].
    + apply mark_alive_well_stamped.
    + apply set_online_false_well_stamped. by apply (H i).
  - destruct ok; intros [= <-]. apply new_dynamic_well_stamped.
Qed.

Lemma bookkeeping_well_stamped now st :
  map_Forall (λ _, well_stamped) (devices st) →
  map_Forall (λ _, well_stamped) (devices (bookkeeping now st)).
Proof.
  intros H j d. rewrite bookkeeping_lookup.
  destruct (devices st !! j) as [d0|] eqn:Hd0; [|done].
  destruct (stale now d0); [done|]. intros [= <-].
  destruct (_ && _); [apply set_seen_before_baseline_well_stamped|];
    by apply (H j).
Qed.

Lemma step_well_stamped st e :
  map_Forall (λ _, well_stamped) (devices st) →
  map_Forall (λ _, well_stamped) (devices (step st e)).
Proof.
  destruct e as [i ok now|now]; cbn [step devices].
  - apply scan_host_well_stamped.
  - apply bookkeeping_well_stamped.
Qed.

Lemma run_well_stamped known now_init tr :
  map_Forall (λ _, well_stamped) (devices (run (init known now_init) tr)).
Proof.
  induction tr as [|e tr IH] using rev_ind.
  - intros i d. cbn. rewrite init_devices_lookup.
    destruct (known !! i); [|done]. intros [= <-]. apply seed_well_stamped.
  - rewrite run_snoc. by apply step_well_stamped.
Qed.

(** A record without [last_seen] belongs to an address that has not
    answered a probe so far. *)
Lemma never_answered known now_init tr :
  ∀ i d, devices (run (init known now_init) tr) !! i = Some d →
         last_seen d = None →
         ∀ t, Probe i true t ∉ tr.
Proof.
  induction tr as [|e tr IH] using rev_ind; intros i d Hd Hl t Hin.
  { by apply elem_of_nil in Hin. }
  rewrite run_snoc in Hd.
  assert (Hprev : e ≠ Probe i true t
                  ∧ ∃ d0, devices (run (init known now_init) tr) !! i = Some d0
                          ∧ last_seen d0 = None).
  { destruct e as [j ok now|now].
    - cbn [step devices] in Hd. rewrite scan_host_lookup in Hd.
      case_decide as E; [subst j|split; [congruence|eauto]].
      destruct (devices _ !! i) as [d0|] eqn:Hd0.
      + destruct ok; simplify_eq; try done.
        split; [done|]. exists d0. by split.
      + by destruct ok; simplify_eq.
    - split; [done|]. cbn [step] in Hd. rewrite bookkeeping_lookup in Hd.
      destruct (devices _ !! i) as [d0|] eqn:Hd0; [|done].
      destruct (stale now d0); [done|]. exists d0. split; [done|].
      destruct (_ && _); by simplify_eq. }
  destruct Hprev as (Hne & d0 & Hd0 & Hl0).
  apply elem_of_app in Hin as [Hin|Hin%list_elem_of_singleton]; [|done].
  by apply (IH i d0 Hd0 Hl0 t).
Qed.

Lemma seen_in_order_tail e tr i d :
  seen_in_order (e :: tr) i d → seen_in_order tr i d.
Proof.
  unfold seen_in_order. destruct (first_seen d); [|done].
  intros (l & Hl & Hle & [_ Hall]%andb_true_iff). eauto.
Qed.

Lemma step_seen_in_order e tr st :
  map_Forall (seen_in_order (e :: tr)) (devices st) →
  clock_monotone (e :: tr) = true →
  map_Forall (seen_in_order tr) (devices (step st e)).
Proof.
  intros H [Hhead Hclock]%andb_true_iff j d.
  destruct e as [i ok now|now].
  - cbn [step devices]. rewrite scan_host_lookup.
    case_decide as E;
      [subst j|by intros Hd; apply (seen_in_order_tail _ _ _ _ (H j d Hd))].
    destruct (devices st !! i) as [d0|] eqn:Hd0.
    + pose proof (H i d0 Hd0) as H0.
      destruct ok; intros [= <-];
        [|by apply (seen_in_order_tail (Probe i false now))].
      unfold seen_in_order, mark_alive in *.
      destruct (first_seen d0) as [f|] eqn:Hf; cbn; rewrite ?Hf.
      * destruct H0 as (l0 & _ & Hle & [Hnow _]%andb_true_iff).
        cbn in Hnow. rewrite decide_True in Hnow by done.
        apply Z.leb_le in Hnow. exists now. split; [done|]. split; [lia|done].
      * exists now. split; [done|]. split; [lia|done].
    + destruct ok; intros [= <-]. cbn. exists now.
      split; [done|]. split; [lia|done].
  - cbn [step]. rewrite bookkeeping_lookup.
    destruct (devices st !! j) as [d0|] eqn:Hd0; [|done].
    destruct (stale now d0); [done|]. intros [= <-].
    pose proof (seen_in_order_tail _ _ _ _ (H j d0 Hd0)) as H0.
    by destruct (_ && _).
Qed.

Lemma run_seen_in_order tr :
  ∀ st, map_Forall (seen_in_order tr) (devices st) →
        clock_monotone tr = true →
        map_Forall (seen_in_order []) (devices (run st tr)).
Proof.
  induction tr as [|e tr IH]; intros st H Hclock; [done|].
  cbn [run foldl]. apply IH.
  - by apply step_seen_in_order.
  - by apply andb_true_iff in Hclock as [_ ?].
Qed.

(** C10, as the code has it. In every state that an execution reaches
    from start-up, a record that is online has [first_seen] and
    [last_seen] set, and [first_seen] is not after [last_seen] when the
    clock does not run backwards between two successful probes of an
    address. So an online entry of a view has
    [age_seconds] and [last_seen_seconds_ago] set. A record without
    [last_seen] is a record from the static list that is offline and whose
    address has never answered a probe. *)
Theorem online_has_timestamps known now_init tr :
  let st := run (init known now_init) tr in
  (∀ ip d, devices st !! ip = Some d → online d = true →
     ∃ f l, first_seen d = Some f ∧ last_seen d = Some l
            ∧ (clock_monotone tr = true → f ≤ l))
  ∧ (∀ now p, p ∈ api_devices now st → p_online p = true →
       is_Some (age_seconds p) ∧ is_Some (last_seen_seconds_ago p))
  ∧ (∀ ip d, devices st !! ip = Some d → last_seen d = None →
       from_known_hosts d = true ∧ online d = false
       ∧ ∀ t, Probe ip true t ∉ tr).
Proof.
  cbv zeta. pose proof (run_well_stamped known now_init tr) as Hws.
  split; [|split].
  - intros i d Hd Hon. destruct (Hws i d Hd) as [Hset _].
    destruct (Hset Hon) as [[f Hf] [l Hl]]. exists f, l.
    split; [done|]. split; [done|]. intros Hclock.
    assert (Hord : seen_in_order [] i d).
    { apply (run_seen_in_order tr (init known now_init)); [|done..].
      intros j d0. cbn. rewrite init_devices_lookup.
      destruct (known !! j); [|done]. by intros [= <-]. }
    unfold seen_in_order in Hord. rewrite Hf in Hord.
    destruct Hord as (l' & Hl' & Hle & _). by simplify_eq.
  - intros now p (i & d & Hd & _ & ->)%elem_of_api_devices. cbn. intros Hon.
    destruct (Hws i d Hd) as [Hset _].
    destruct (Hset Hon) as [[f Hf] [l Hl]].
    unfold compute_age, compute_last_seen_ago. rewrite Hf, Hl. by eauto.
  - intros i d Hd Hl. destruct (Hws i d Hd) as [_ Hnone].
    destruct (Hnone Hl) as (? & ? & _). split; [done|]. split; [done|].
    by apply (never_answered known now_init tr i d).
Qed.

Lemma online_has_timestamps_witness :
  let tr := [Probe 7%N true 1010; Probe 9%N true 1011; EndSweep 1020;
             Probe 7%N false 1050; Probe 9%N true 1051] in
  let st := run (init {[ 7%N := HostInfo "nas" true false ]} 1000) tr in
  let d := Device 9 None false false false (Some 1011) (Some 1051) true 1011
                  (Some true) in
  clock_monotone tr = true
  ∧ devices st !! 9%N = Some d
  ∧ online d = true
  ∧ ∃ f l, first_seen d = Some f ∧ last_seen d = Some l ∧ f ≤ l.
Proof.
  cbv zeta.
  assert (Hd : devices
                 (run (init {[ 7%N := HostInfo "nas" true false ]} 1000)
                    [Probe 7%N true 1010; Probe 9%N true 1011; EndSweep 1020;
                     Probe 7%N false 1050; Probe 9%N true 1051]) !! 9%N
               = Some (Device 9 None false false false (Some 1011) (Some 1051)
                              true 1011 (Some true)))
    by (vm_compute; reflexivity).
  split; [reflexivity|]. split; [exact Hd|]. split; [reflexivity|].
  destruct (proj1 (online_has_timestamps _ _ _) _ _ Hd eq_refl)
    as (f & l & Hf & Hl & Hle).
  exists f, l. split; [exact Hf|]. split; [exact Hl|]. exact (Hle eq_refl).
Defined.

(** C10, as stated, fails when the clock is set back between two
    successful probes of one address: [scan_host] keeps [first_seen] and
    overwrites [last_seen] with the earlier reading, and the record is
    online with [first_seen] after [last_seen]. *)
Lemma clock_set_back_breaks_order :
  let st := run (init ∅ 10) [Probe 9%N true 100; Probe 9%N true 50] in
  ∃ d, devices st !! 9%N = Some d
     ∧ online d = true
     ∧ first_seen d = Some 100
     ∧ last_seen d = Some 50
     ∧ ¬ (100 ≤ 50).
Proof.
  cbv zeta. eexists. split; [vm_compute; reflexivity|].
  repeat split. lia.
Qed.

(** ** Scenarios of the specification *)

(** A record seeded from the known-hosts list stays in the registry with
    its static fields; as long as its address has not answered, it is the
    seeded record, marked or not. *)
Lemma static_record_kept known now_init tr addr info :
  known !! addr = Some info →
  ∃ d, devices (run (init known now_init) tr) !! addr = Some d
     ∧ from_known_hosts d = true
     ∧ ((∀ t, Probe addr true t ∉ tr) →
          d = seed now_init addr info
          ∨ d = set_seen_before_baseline true (seed now_init addr info)).
Proof.
  intros Hi. induction tr as [|e tr IH] using rev_ind.
  - exists (seed now_init addr info). cbn. rewrite init_devices_lookup, Hi.
    split; [done|]. split; [done|]. by left.
  - destruct IH as (d0 & Hd0 & Hs0 & Hseed). rewrite run_snoc.
    assert (Hquiet : (∀ t, Probe addr true t ∉ tr ++ [e]) →
                     (∀ t, Probe addr true t ∉ tr) ∧ ∀ t, e ≠ Probe addr true t).
    { intros H. split; intros t; specialize (H t);
        rewrite elem_of_app, list_elem_of_singleton in H; naive_solver. }
    destruct e as [j ok now|now].
    + cbn [step devices]. rewrite scan_host_lookup.
      case_decide as E.
      * subst j. rewrite Hd0. destruct ok.
        -- eexists. split; [done|]. split; [by unfold mark_alive; destruct (first_seen d0)|].
           intros [_ Hne]%Hquiet. by destruct (Hne now).
        -- eexists. split; [done|]. split; [done|].
           intros [Hq _]%Hquiet. by destruct (Hseed Hq) as [-> | ->]; [left|right].
      * exists d0. split; [done|]. split; [done|].
        intros [Hq _]%Hquiet. by apply Hseed.
    + cbn [step]. rewrite bookkeeping_lookup, Hd0.
      rewrite (stale_protected now d0) by by right.
      eexists. split; [done|]. split; [by destruct (_ && _)|].
      intros [Hq _]%Hquiet.
      destruct (_ && _); destruct (Hseed Hq) as [-> | ->]; by eauto.
Qed.

(** X1. The scenario of the required static device that never answers: a
    known-hosts entry that is required and not a VIP, and whose address has
    never answered a probe, is in every view of every execution, offline
    and required, with its hostname and without ages. It is never
    evicted. *)
Theorem required_static_always_listed known now_init tr addr info now :
  known !! addr = Some info →
  hi_required info = true →
  hi_vip info = false →
  (∀ t, Probe addr true t ∉ tr) →
  Payload addr (Some (hi_hostname info)) true false false None None false
    ∈ api_devices now (run (init known now_init) tr).
Proof.
  intros Hi Hr Hv Hq.
  destruct (static_record_kept known now_init tr addr info Hi)
    as (d & Hd & _ & Hseed).
  apply elem_of_api_devices. exists addr, d. split; [done|].
  destruct (Hseed Hq) as [-> | ->];
    unfold visible, make_row, compute_is_new; cbn; by rewrite Hr, Hv.
Qed.

Lemma required_static_always_listed_witness :
  Payload 5 (Some "printer"%string) true false false None None false
    ∈ api_devices 5000
        (run (init {[ 5%N := HostInfo "printer" true false ]} 1000)
             [Probe 5%N false 1010; EndSweep 1020; Probe 9%N true 1050;
              Probe 5%N false 1051; EndSweep 4000]).
Proof.
  apply (required_static_always_listed
           {[ 5%N := HostInfo "printer" true false ]} 1000
           [Probe 5%N false 1010; EndSweep 1020; Probe 9%N true 1050;
            Probe 5%N false 1051; EndSweep 4000]
           5%N (HostInfo "printer" true false) 5000);
    [reflexivity..|].
  intros t Hin. apply list_elem_of_In in Hin. cbn in Hin.
  repeat (destruct Hin as [Hin|Hin]; [discriminate Hin|]). exact Hin.
Defined.

(** X2. The scenario of the dynamic device that stays away: a record that
    is not static, not required, offline and last seen (at a reading other
    than [0]) more than the forget threshold before [now] is gone after the
    bookkeeping at [now], and is in no view from then on until its address
    answers again. *)
Theorem stale_dynamic_forgotten st addr d l now :
  devices st !! addr = Some d →
  from_known_hosts d = false →
  required d = false →
  online d = false →
  last_seen d = Some l →
  l ≠ 0 →
  OFFLINE_FORGET_SECONDS < now - l →
  devices (bookkeeping now st) !! addr = None
  ∧ ∀ now', ¬ listed addr (api_devices now' (bookkeeping now st)).
Proof.
  intros Hd Hs Hr Ho Hl Hl0 Hold.
  assert (Hgone : devices (bookkeeping now st) !! addr = None).
  { rewrite bookkeeping_lookup, Hd.
    assert (stale now d = true) as ->; [|done].
    unfold stale. rewrite Hs, Hr, Ho, (base_last_seen now d l Hl Hl0). cbn.
    by apply Z.gtb_lt. }
  split; [done|]. intros now'. rewrite listed_api_devices.
  intros (d' & Hd' & _). by rewrite Hgone in Hd'.
Qed.

Lemma stale_dynamic_forgotten_witness :
  let st := run (init ∅ 900) [Probe 9%N true 1010; EndSweep 1020;
                              Probe 9%N false 1050] in
  devices (bookkeeping 1400 st) !! 9%N = None
  ∧ ∀ now', ¬ listed 9%N (api_devices now' (bookkeeping 1400 st)).
Proof.
  cbv zeta.
  apply (stale_dynamic_forgotten _ 9%N
           (Device 9 None false false false (Some 1010) (Some 1010) false 1010
                   (Some true)) 1010 1400);
    [vm_compute; reflexivity|reflexivity..|discriminate|reflexivity].
Defined.

(** ** The known-hosts parser *)

Lemma app_String c s t : String c s +:+ t = String c (s +:+ t).
Proof. reflexivity. Qed.

Lemma app_empty_l s : "" +:+ s = s.
Proof. reflexivity. Qed.

Lemma lstrip_all_space s : all_space s = true → lstrip s = "".
Proof.
  induction s as [|c s IH]; [done|]. cbn.
  intros [Hc Hs]%andb_true_iff. rewrite Hc. by apply IH.
Qed.

Lemma lstrip_empty_all_space s : lstrip s = "" → all_space s = true.
Proof.
  induction s as [|c s IH]; [done|]. cbn.
  destruct (isspace c); [exact IH|done].
Qed.

Lemma rstrip_all_space s : all_space s = true → rstrip s = "".
Proof.
  induction s as [|c s IH]; [done|]. cbn.
  intros [Hc Hs]%andb_true_iff. rewrite (IH Hs). by rewrite Hc.
Qed.

Lemma rstrip_empty_all_space s : rstrip s = "" → all_space s = true.
Proof.
  induction s as [|c s IH]; [done|]. cbn.
  destruct (rstrip s) eqn:Hr; [|done].
  destruct (isspace c); [by intros _; apply IH|done].
Qed.

Lemma lstrip_app_space w s : all_space w = true → lstrip (w +:+ s) = lstrip s.
Proof.
  induction w as [|c w IH]; [done|]. rewrite app_String. cbn.
  intros [Hc Hw]%andb_true_iff. rewrite Hc. by apply IH.
Qed.

Lemma rstrip_app a b :
  rstrip (a +:+ b) =
    match rstrip b with
    | "" => rstrip a
    | r => a +:+ r
    end.
Proof.
  induction a as [|c a IH].
  - rewrite app_empty_l. by destruct (rstrip b).
  - rewrite app_String. cbn. rewrite IH. destruct (rstrip b) eqn:Hb.
    + done.
    + destruct a; reflexivity.
Qed.

Lemma rstrip_app_space s w : all_space w = true → rstrip (s +:+ w) = rstrip s.
Proof. intros Hw. by rewrite rstrip_app, (rstrip_all_space w Hw). Qed.

(** The two ends are stripped independently. *)
Lemma lstrip_rstrip s : lstrip (rstrip s) = rstrip (lstrip s).
Proof.
  induction s as [|c s IH]; [done|]. cbn.
  destruct (isspace c) eqn:Hc.
  - destruct (rstrip s) eqn:Hr.
    + by rewrite <- IH.
    + cbn. by rewrite Hc.
  - cbn. destruct (rstrip s); cbn; by rewrite Hc.
Qed.

Lemma strip_pad w s w' :
  all_space w = true → all_space w' = true →
  strip (w +:+ s +:+ w') = strip s.
Proof.
  intros Hw Hw'. unfold strip.
  rewrite !lstrip_rstrip, (lstrip_app_space _ _ Hw), <- !lstrip_rstrip.
  by rewrite (rstrip_app_space _ _ Hw').
Qed.

Lemma lstrip_head s c s' : lstrip s = String c s' → isspace c = false.
Proof.
  induction s as [|c0 s IH]; [done|]. cbn.
  destruct (isspace c0) eqn:Hc0; [exact IH|]. by intros [= <- _].
Qed.

Lemma lstrip_idem s : lstrip (lstrip s) = lstrip s.
Proof.
  destruct (lstrip s) as [|c t] eqn:Ht; [done|].
  apply lstrip_head in Ht. cbn. by rewrite Ht.
Qed.

Lemma strip_empty_iff s : strip s = "" ↔ lstrip s = "".
Proof.
  unfold strip. split.
  - rewrite lstrip_rstrip. intros H%rstrip_empty_all_space%lstrip_all_space.
    by rewrite lstrip_idem in H.
  - intros H%lstrip_empty_all_space. by rewrite (rstrip_all_space _ H).
Qed.

Lemma startswith_strip c s :
  startswith c (strip s) = startswith c (lstrip s).
Proof.
  unfold strip. rewrite lstrip_rstrip.
  destruct (lstrip s) as [|c0 t] eqn:Ht; [done|].
  apply lstrip_head in Ht. cbn. rewrite Ht. by destruct (rstrip t).
Qed.

Lemma count_char_lstrip c s :
  isspace c = false → count_char c (lstrip s) = count_char c s.
Proof.
  intros Hc. induction s as [|c0 s IH]; [done|]. cbn.
  destruct (isspace c0) eqn:Hc0; [|done].
  rewrite IH. destruct (Ascii.eqb_spec c0 c); [congruence|done].
Qed.

Lemma count_char_rstrip c s :
  isspace c = false → count_char c (rstrip s) = count_char c s.
Proof.
  intros Hc. induction s as [|c0 s IH]; [done|]. cbn.
  destruct (rstrip s) eqn:Hr.
  - cbn in IH. rewrite <- IH.
    destruct (isspace c0) eqn:Hc0; cbn; [|lia].
    destruct (Ascii.eqb_spec c0 c); [congruence|done].
  - by rewrite <- IH.
Qed.

Lemma count_char_strip c s :
  isspace c = false → count_char c (strip s) = count_char c s.
Proof.
  intros Hc. unfold strip.
  by rewrite (count_char_lstrip c _ Hc), (count_char_rstrip c _ Hc).
Qed.

Lemma split_length sep s : length (split sep s) = S (count_char sep s).
Proof.
  induction s as [|c s IH]; [done|]. cbn.
  destruct (Ascii.eqb c sep); cbn; [by rewrite IH|].
  destruct (split sep s); cbn in *; lia.
Qed.

Lemma split_no_sep sep s : count_char sep s = 0%nat → split sep s = [s].
Proof.
  induction s as [|c s IH]; [done|]. cbn.
  destruct (Ascii.eqb c sep); [done|]. cbn. intros H. by rewrite (IH H).
Qed.

Lemma split_app_sep sep a b :
  count_char sep a = 0%nat →
  split sep (a +:+ String sep b) = a :: split sep b.
Proof.
  induction a as [|c a IH].
  - rewrite app_empty_l. cbn. by rewrite Ascii.eqb_refl.
  - rewrite app_String. cbn.
    destruct (Ascii.eqb c sep); [done|]. cbn. intros H. by rewrite (IH H).
Qed.

(** A line holds no entry exactly when it is blank, a comment, or has
    fewer than two commas. *)
Lemma parse_line_None line :
  parse_line line = None ↔ ignorable line = true.
Proof.
  unfold parse_line, ignorable. cbv zeta.
  rewrite startswith_strip, length_fmap, split_length.
  rewrite (count_char_strip "," line eq_refl).
  assert (bool_decide (strip line = "") = bool_decide (lstrip line = "")) as ->.
  { apply bool_decide_ext, strip_empty_iff. }
  destruct (bool_decide (lstrip line = "") || startswith "#" (lstrip line));
    [done|]. rewrite orb_false_l.
  pose proof (split_length "," (strip line)) as Hlen.
  rewrite (count_char_strip "," line eq_refl) in Hlen.
  destruct (Nat.ltb_spec (S (count_char "," line)) 3) as [Hlt|Hge].
  - split; [intros _|done]. apply Nat.ltb_lt. lia.
  - destruct (split "," (strip line)) as [|p1 [|p2 [|p3 rest]]];
      cbn [length] in Hlen; try lia.
    split; [done|]. intros H. apply Nat.ltb_lt in H. lia.
Qed.

Lemma rstrip_idem s : rstrip (rstrip s) = rstrip s.
Proof.
  induction s as [|c s IH]; [done|]. cbn.
  destruct (rstrip s) as [|c' r] eqn:Hr.
  - destruct (isspace c) eqn:Hc; [done|]. cbn. by rewrite Hc.
  - cbn -[rstrip]. cbn [rstrip]. fold rstrip. 
    change (match rstrip (String c' r) with
            | "" => if isspace c then "" else String c ""
            | String a s0 => String c (String a s0)
            end = String c (String c' r)).
    by rewrite IH.
Qed.

Lemma strip_lstrip s : strip (lstrip s) = strip s.
Proof. unfold strip. by rewrite <- lstrip_rstrip, lstrip_idem. Qed.

Lemma strip_rstrip s : strip (rstrip s) = strip s.
Proof. unfold strip. by rewrite rstrip_idem. Qed.

Lemma strip_idem s : strip (strip s) = strip s.
Proof. unfold strip at 2. by rewrite strip_lstrip, strip_rstrip. Qed.

Lemma all_space_count c s :
  isspace c = false → all_space s = true → count_char c s = 0%nat.
Proof.
  intros Hc. induction s as [|c0 s IH]; [done|]. cbn.
  intros [Hc0 Hs]%andb_true_iff. rewrite (IH Hs).
  destruct (Ascii.eqb_spec c0 c); [congruence|done].
Qed.

Lemma split_cons sep c s :
  split sep (String c s) =
    if Ascii.eqb c sep then "" :: split sep s
    else String c (hd "" (split sep s)) :: tl (split sep s).
Proof.
  cbn. destruct (Ascii.eqb c sep); [done|].
  pose proof (split_length sep s) as Hlen.
  destruct (split sep s); [cbn in Hlen; lia|reflexivity].
Qed.

Lemma split_hd_tl sep s : split sep s = hd "" (split sep s) :: tl (split sep s).
Proof.
  pose proof (split_length sep s) as Hlen.
  destruct (split sep s); [cbn in Hlen; lia|reflexivity].
Qed.

Lemma split_lstrip sep s :
  isspace sep = false →
  split sep (lstrip s) = map_first lstrip (split sep s).
Proof.
  intros Hsep. induction s as [|c s IH]; [done|].
  rewrite split_cons. cbn [lstrip].
  destruct (isspace c) eqn:Hc.
  - destruct (Ascii.eqb_spec c sep) as [->|_]; [congruence|].
    rewrite IH. cbn. rewrite Hc.
    pose proof (split_length sep s) as Hlen.
    destruct (split sep s); [cbn in Hlen; lia|reflexivity].
  - rewrite split_cons. destruct (Ascii.eqb c sep); [done|]. cbn. by rewrite Hc.
Qed.

Lemma split_rstrip sep s :
  isspace sep = false →
  split sep (rstrip s) = map_last rstrip (split sep s).
Proof.
  intros Hsep. induction s as [|c s IH]; [done|].
  rewrite (split_cons sep c s).
  destruct (Ascii.eqb_spec c sep) as [->|Hne].
  - assert (rstrip (String sep s) = String sep (rstrip s)) as ->.
    { cbn. destruct (rstrip s); [by rewrite Hsep|done]. }
    rewrite split_cons, Ascii.eqb_refl, IH.
    pose proof (split_length sep s) as Hlen.
    destruct (split sep s); [cbn in Hlen; lia|reflexivity].
  - destruct (rstrip s) as [|c' r] eqn:Hr.
    + pose proof (rstrip_empty_all_space s Hr) as Hs.
      rewrite (split_no_sep sep s (all_space_count _ _ Hsep Hs)).
      cbn [hd tl map_last]. cbn [rstrip]. rewrite Hr.
      destruct (isspace c); [done|].
      rewrite split_cons. destruct (Ascii.eqb_spec c sep); done.
    + assert (rstrip (String c s) = String c (String c' r)) as ->.
      { cbn. by rewrite Hr. }
      rewrite (split_cons sep c). destruct (Ascii.eqb_spec c sep); [done|].
      rewrite IH.
      pose proof (split_length sep s) as Hlen.
      destruct (split sep s) as [|x [|y ys]] eqn:Hsp; [cbn in Hlen; lia| |done].
      cbn [map_last hd tl] in *.
      assert (rstrip x = String c' (hd "" (split sep r))) as Hx.
      { rewrite split_cons in IH.
        destruct (Ascii.eqb c' sep); [|by simplify_eq].
        pose proof (split_length sep r) as Hlen'. injection IH as _ Hnil.
        rewrite Hnil in Hlen'. cbn in Hlen'. lia. }
      cbn [rstrip]. by rewrite Hx.
Qed.

Lemma fmap_strip_map_first l : strip <$> map_first lstrip l = strip <$> l.
Proof. destruct l as [|x l]; [done|]. cbn. by rewrite strip_lstrip. Qed.

Lemma fmap_strip_map_last l : strip <$> map_last rstrip l = strip <$> l.
Proof.
  induction l as [|x [|y l] IH]; [done| |].
  - cbn. by rewrite strip_rstrip.
  - cbn [map_last]. rewrite !fmap_cons. f_equal. exact IH.
Qed.

(** Stripping the line first changes nothing in its stripped fields. *)
Lemma fields_strip line :
  strip <$> split "," (strip line) = strip <$> split "," line.
Proof.
  unfold strip at 2.
  rewrite (split_lstrip "," _ eq_refl), (split_rstrip "," _ eq_refl).
  by rewrite fmap_strip_map_first, fmap_strip_map_last.
Qed.

(** A line that is not ignorable stores the stripped first field as the
    key, the second as the hostname, and the flags read off the third and,
    if there is one, the fourth. *)
Lemma parse_line_fields line :
  ignorable line = false →
  ∃ ip hostname req_str rest,
    strip <$> split "," line = ip :: hostname :: req_str :: rest
    ∧ parse_line line =
        Some (ip, HostInfo hostname (is_true_word (lower req_str))
                    match rest with
                    | vip_str :: _ => is_true_word (lower vip_str)
                    | [] => false
                    end).
Proof.
  intros Hign.
  destruct (parse_line line) as [[ip entry]|] eqn:Hp;
    [|by apply parse_line_None in Hp; congruence].
  revert Hp. unfold parse_line. cbv zeta. rewrite fields_strip.
  destruct (_ || _); [done|]. destruct (_ <? _)%nat; [done|].
  destruct (strip <$> split "," line) as [|p1 [|p2 [|p3 rest]]]; try done.
  intros [= <- <-]. by exists p1, p2, p3, rest.
Qed.

Lemma lstrip_app a b :
  lstrip (a +:+ b) =
    match lstrip a with
    | "" => lstrip b
    | r => r +:+ b
    end.
Proof.
  induction a as [|c a IH]; [done|]. rewrite app_String. cbn.
  destruct (isspace c); [exact IH|done].
Qed.

Lemma count_char_app c a b :
  count_char c (a +:+ b) = (count_char c a + count_char c b)%nat.
Proof.
  induction a as [|c0 a IH]; [done|]. rewrite app_String. cbn. rewrite IH. lia.
Qed.

(** A line whose first field does not open a comment and that has two
    commas or more is not ignorable. *)
Lemma fields_not_ignorable p1 rest :
  count_char "," p1 = 0%nat →
  startswith "#" (strip p1) = false →
  (1 ≤ count_char "," rest)%nat →
  ignorable (p1 +:+ "," +:+ rest) = false.
Proof.
  intros Hc Hh Hr. unfold ignorable. cbv zeta.
  rewrite startswith_strip in Hh. rewrite lstrip_app.
  rewrite !count_char_app, Hc.
  assert (count_char "," "," = 1%nat) as -> by done.
  destruct (Nat.ltb_spec (0 + (1 + count_char "," rest)) 2); [lia|].
  rewrite orb_false_r.
  destruct (lstrip p1) as [|c r]; [done|].
  rewrite app_String. cbn in Hh. cbn. by rewrite Hh.
Qed.

Lemma split_fields3 p1 p2 rest :
  count_char "," p1 = 0%nat → count_char "," p2 = 0%nat →
  split "," (p1 +:+ "," +:+ p2 +:+ "," +:+ rest) = p1 :: p2 :: split "," rest.
Proof.
  intros H1 H2.
  change ("," +:+ p2 +:+ "," +:+ rest) with (String "," (p2 +:+ String "," rest)).
  by rewrite (split_app_sep "," p1 _ H1), (split_app_sep "," p2 _ H2).
Qed.

Lemma load_known_hosts_snoc lines line :
  load_known_hosts (Some (lines ++ [line])) =
    match parse_line line with
    | Some (ip, entry) => <[ip := entry]> (load_known_hosts (Some lines))
    | None => load_known_hosts (Some lines)
    end.
Proof. unfold load_known_hosts. by rewrite foldl_app. Qed.

(** X13. The entry that [load_known_hosts] returns for a key is the entry of
    the last line of the file that holds one for this key, and there is
    none when no line does: a later line replaces an earlier one. *)
Theorem load_known_hosts_last_wins lines ip :
  load_known_hosts (Some lines) !! ip = last (omap (entry_of ip) lines).
Proof.
  induction lines as [|line lines IH] using rev_ind; [done|].
  rewrite load_known_hosts_snoc, omap_app. cbn [omap list_omap].
  unfold entry_of at 2.
  destruct (parse_line line) as [[ip' entry]|].
  - destruct (decide (ip' = ip)) as [->|Hne].
    + by rewrite lookup_insert_eq, last_snoc.
    + rewrite lookup_insert_ne by done. by rewrite app_nil_r.
  - by rewrite app_nil_r.
Qed.

(** X14. A line that is blank, a comment or has fewer than two commas can be
    put into the file or taken out of it anywhere: the result is the
    same. *)
Theorem ignorable_line_skipped before line after :
  ignorable line = true →
  load_known_hosts (Some (before ++ line :: after)) =
  load_known_hosts (Some (before ++ after)).
Proof.
  intros Hign%parse_line_None. unfold load_known_hosts.
  rewrite !foldl_app. cbn [foldl]. by rewrite Hign.
Qed.

Lemma ignorable_line_skipped_witness :
  load_known_hosts (Some ["10.0.0.5,printer,true"; "  # spare"; "10.0.0.7,nas,no"]) =
  load_known_hosts (Some ["10.0.0.5,printer,true"; "10.0.0.7,nas,no"]).
Proof.
  exact (ignorable_line_skipped ["10.0.0.5,printer,true"] "  # spare"
           ["10.0.0.7,nas,no"] eq_refl).
Defined.

(** X15. A line [p1,p2,p3,p4] whose four parts hold no comma and whose first
    part does not open a comment is read as the key [p1], the hostname
    [p2] and the flags [p3] and [p4], each without the white space around
    it; a flag is true exactly for the words true, 1, yes and ja in any
    case. Without the fourth part the VIP flag is false, and whatever
    follows a fifth comma is not read. *)
Theorem known_hosts_line_read p1 p2 p3 p4 :
  count_char "," p1 = 0%nat →
  count_char "," p2 = 0%nat →
  count_char "," p3 = 0%nat →
  count_char "," p4 = 0%nat →
  startswith "#" (strip p1) = false →
  parse_line (p1 +:+ "," +:+ p2 +:+ "," +:+ p3 +:+ "," +:+ p4) =
    Some (strip p1, HostInfo (strip p2) (is_true_word (lower (strip p3)))
                             (is_true_word (lower (strip p4))))
  ∧ parse_line (p1 +:+ "," +:+ p2 +:+ "," +:+ p3) =
      Some (strip p1, HostInfo (strip p2) (is_true_word (lower (strip p3)))
                               false)
  ∧ ∀ more,
      parse_line (p1 +:+ "," +:+ p2 +:+ "," +:+ p3 +:+ "," +:+ p4
                     +:+ "," +:+ more) =
        Some (strip p1, HostInfo (strip p2) (is_true_word (lower (strip p3)))
                                 (is_true_word (lower (strip p4)))).
Proof.
  intros H1 H2 H3 H4 Hh.
  assert (Hread : ∀ rest fields,
            split "," rest = p3 :: fields →
            parse_line (p1 +:+ "," +:+ p2 +:+ "," +:+ rest) =
              Some (strip p1,
                    HostInfo (strip p2) (is_true_word (lower (strip p3)))
                      match fields with
                      | vip_str :: _ => is_true_word (lower (strip vip_str))
                      | [] => false
                      end)).
  { intros rest fields Hrest.
    destruct (parse_line_fields (p1 +:+ "," +:+ p2 +:+ "," +:+ rest))
      as (ip & hostname & req & tail & Hsplit & ->).
    - apply fields_not_ignorable; [done..|].
      rewrite !count_char_app.
      change (count_char "," ",") with 1%nat. lia.
    - rewrite (split_fields3 p1 p2 rest H1 H2), Hrest in Hsplit.
      cbn in Hsplit. injection Hsplit as <- <- <- <-. by destruct fields. }
  split; [|split].
  - apply (Hread _ [p4]).
    change ("," +:+ p4) with (String "," p4).
    by rewrite (split_app_sep "," p3 _ H3), (split_no_sep "," p4 H4).
  - apply (Hread _ []). by rewrite (split_no_sep "," p3 H3).
  - intros more.
    apply (Hread _ (p4 :: split "," more)).
    change ("," +:+ p4 +:+ "," +:+ more) with (String "," (p4 +:+ String "," more)).
    by rewrite (split_app_sep "," p3 _ H3), (split_app_sep "," p4 _ H4).
Qed.

Lemma known_hosts_line_read_witness :
  parse_line "  10.0.0.5 , printer ,TRUE, Ja " =
    Some ("10.0.0.5", HostInfo "printer" true true)
  ∧ parse_line "  10.0.0.5 , printer ,TRUE" =
    Some ("10.0.0.5", HostInfo "printer" true false).
Proof.
  destruct (known_hosts_line_read "  10.0.0.5 " " printer " "TRUE" " Ja "
              eq_refl eq_refl eq_refl eq_refl eq_refl) as (H4 & H3 & _).
  split; [exact H4|exact H3].
Defined.

Lemma split_parts_no_sep sep s :
  Forall (λ p, count_char sep p = 0%nat) (split sep s).
Proof.
  induction s as [|c s IH]; [by repeat constructor|].
  rewrite split_cons. rewrite (split_hd_tl sep s) in IH.
  apply Forall_cons in IH as [Hhd Htl].
  destruct (Ascii.eqb c sep) eqn:Hc.
  - constructor; [done|]. rewrite (split_hd_tl sep s). by constructor.
  - constructor; [|done]. cbn. by rewrite Hc.
Qed.

Lemma startswith_split_hd c sep s :
  c ≠ sep → startswith c (hd "" (split sep s)) = startswith c s.
Proof.
  intros Hne. destruct s as [|c0 s]; [done|]. rewrite split_cons.
  destruct (Ascii.eqb_spec c0 sep) as [->|_]; cbn; [|done].
  symmetry. by apply Ascii.eqb_neq.
Qed.

Lemma load_known_hosts_from_line lines ip entry :
  load_known_hosts (Some lines) !! ip = Some entry →
  ∃ line, line ∈ lines ∧ parse_line line = Some (ip, entry).
Proof.
  induction lines as [|line lines IH] using rev_ind; [done|].
  rewrite load_known_hosts_snoc.
  assert (Hold : load_known_hosts (Some lines) !! ip = Some entry →
                 ∃ line0, line0 ∈ lines ++ [line]
                          ∧ parse_line line0 = Some (ip, entry)).
  { intros (line0 & Hin & Hp)%IH. exists line0. split; [|done].
    apply elem_of_app. by left. }
  destruct (parse_line line) as [[ip' entry']|] eqn:Hp; [|done].
  destruct (decide (ip' = ip)) as [->|Hne].
  - rewrite lookup_insert_eq. intros [= <-]. exists line. split; [|done].
    apply elem_of_app. right. by left.
  - by rewrite lookup_insert_ne.
Qed.

(** X16. Every key and every hostname that [load_known_hosts] returns is
    free of commas and of white space at its ends, and no key starts with
    the comment sign. *)
Theorem known_hosts_fields_clean lines ip entry :
  load_known_hosts (Some lines) !! ip = Some entry →
  strip ip = ip ∧ count_char "," ip = 0%nat ∧ startswith "#" ip = false
  ∧ strip (hi_hostname entry) = hi_hostname entry
  ∧ count_char "," (hi_hostname entry) = 0%nat.
Proof.
  intros (line & Hin & Hp)%load_known_hosts_from_line.
  assert (Hign : ignorable line = false).
  { apply not_true_is_false. intros H%parse_line_None. congruence. }
  destruct (parse_line_fields line Hign)
    as (ip0 & hostname & req & rest & Hsplit & Hp').
  rewrite Hp in Hp'. injection Hp' as -> ->. cbn [hi_hostname].
  pose proof (split_parts_no_sep "," line) as Hno.
  pose proof (split_lstrip "," line eq_refl) as Hl.
  destruct (split "," line) as [|q1 [|q2 qs]] eqn:Hq; [done..|].
  cbn in Hsplit. injection Hsplit as <- <- _.
  apply Forall_cons in Hno as [Hq1 [Hq2 _]%Forall_cons].
  rewrite !strip_idem, !(count_char_strip "," _ eq_refl).
  repeat split; try done.
  rewrite startswith_strip.
  assert (lstrip q1 = hd "" (split "," (lstrip line))) as -> by by rewrite Hl.
  rewrite startswith_split_hd by done.
  unfold ignorable in Hign. cbv zeta in Hign.
  by apply orb_false_iff in Hign as [[_ ?]%orb_false_iff _].
Qed.

Lemma known_hosts_fields_clean_witness :
  strip "10.0.0.5" = "10.0.0.5" ∧ count_char "," "10.0.0.5" = 0%nat
  ∧ startswith "#" "10.0.0.5" = false
  ∧ strip "printer" = "printer" ∧ count_char "," "printer" = 0%nat.
Proof.
  exact (known_hosts_fields_clean ["  10.0.0.5 , printer ,TRUE, Ja "]
           "10.0.0.5" (HostInfo "printer" true true) eq_refl).
Defined.

(** ** Sweeps *)

Lemma scan_hosts_snoc outcomes o devs :
  scan_hosts (outcomes ++ [o]) devs =
    scan_host o.1.1 o.1.2 o.2 (scan_hosts outcomes devs).
Proof. unfold scan_hosts. by rewrite foldl_app. Qed.

Lemma scan_hosts_not_probed outcomes devs a :
  a ∉ probed outcomes → scan_hosts outcomes devs !! a = devs !! a.
Proof.
  induction outcomes as [|[[a0 ok] t] outcomes IH] using rev_ind; [done|].
  unfold probed. rewrite fmap_app, not_elem_of_app. cbn.
  intros [Hin [Hne _]%not_elem_of_cons]. rewrite scan_hosts_snoc. cbn.
  rewrite scan_host_other by done. by apply IH.
Qed.

Lemma scan_hosts_probed_once outcomes devs a ok t :
  NoDup (probed outcomes) → (a, ok, t) ∈ outcomes →
  scan_hosts outcomes devs !! a = scan_host a ok t devs !! a.
Proof.
  induction outcomes as [|[[a0 ok0] t0] outcomes IH] using rev_ind;
    [by intros _ ?%elem_of_nil|].
  unfold probed. rewrite fmap_app. cbn.
  intros [Hnd [Hdisj _]]%NoDup_app Hin.
  rewrite scan_hosts_snoc. cbn.
  apply elem_of_app in Hin as [Hin|Hin%list_elem_of_singleton].
  - assert (a ≠ a0) as Hne.
    { intros ->. apply (Hdisj a0); [|by left].
      apply list_elem_of_fmap. by exists (a0, ok, t). }
    rewrite scan_host_other by done. by apply IH.
  - injection Hin as <- <- <-.
    assert (a ∉ probed outcomes) as Hnot.
    { intros Hin. apply (Hdisj a Hin). by left. }
    rewrite !scan_host_lookup. case_decide; [|done].
    by rewrite (scan_hosts_not_probed _ _ _ Hnot).
Qed.

(** X4. In a sweep that probes no address twice, the record of an address
    after all the probes is what its own probe alone makes of the record
    before the sweep, and the records of the addresses that were not
    probed are as before. *)
Theorem sweep_by_address outcomes devs :
  NoDup (probed outcomes) →
  (∀ a ok t, (a, ok, t) ∈ outcomes →
     scan_hosts outcomes devs !! a = scan_host a ok t devs !! a)
  ∧ (∀ a, a ∉ probed outcomes → scan_hosts outcomes devs !! a = devs !! a).
Proof.
  intros Hnd. split.
  - intros a ok t. by apply scan_hosts_probed_once.
  - intros a. apply scan_hosts_not_probed.
Qed.

Lemma sweep_by_address_witness :
  let devs : gmap N device := {[ 7%N := seed 1000 7 (HostInfo "nas" true false) ]} in
  let outcomes := [(9%N, true, 1010); (7%N, false, 1011); (12%N, false, 1012)] in
  scan_hosts outcomes devs !! 9%N = Some (new_dynamic 9 1010)
  ∧ scan_hosts outcomes devs !! 12%N = None.
Proof.
  cbv zeta.
  assert (Hnd : NoDup (probed [(9%N, true, 1010); (7%N, false, 1011);
                               (12%N, false, 1012)]))
    by (apply (bool_decide_unpack _); vm_compute; exact I).
  destruct (sweep_by_address
              [(9%N, true, 1010); (7%N, false, 1011); (12%N, false, 1012)]
              {[ 7%N := seed 1000 7 (HostInfo "nas" true false) ]} Hnd)
    as [Hin _].
  split.
  - rewrite (Hin 9%N true 1010); [reflexivity|]. by left.
  - rewrite (Hin 12%N false 1012); [reflexivity|]. by do 2 right; left.
Defined.

(** X5. The registry that the probes of a sweep leave does not depend on the
    order in which the threads take the lock, as long as no address is
    probed twice. *)
Theorem sweep_order_irrelevant outcomes outcomes' devs :
  NoDup (probed outcomes) →
  outcomes ≡ₚ outcomes' →
  scan_hosts outcomes devs = scan_hosts outcomes' devs.
Proof.
  intros Hnd Hperm. apply map_eq. intros a.
  assert (Hnd' : NoDup (probed outcomes')).
  { unfold probed. by rewrite <- Hperm. }
  destruct (decide (a ∈ probed outcomes)) as [Hin|Hnot].
  - apply list_elem_of_fmap in Hin as ([[a0 ok] t] & -> & Hin). cbn.
    rewrite (scan_hosts_probed_once outcomes devs a0 ok t Hnd Hin).
    rewrite Hperm in Hin.
    by rewrite (scan_hosts_probed_once outcomes' devs a0 ok t Hnd' Hin).
  - rewrite (scan_hosts_not_probed _ _ _ Hnot).
    unfold probed in Hnot. rewrite Hperm in Hnot.
    by rewrite (scan_hosts_not_probed _ _ _ Hnot).
Qed.

Lemma sweep_order_irrelevant_witness :
  let devs : gmap N device := {[ 7%N := seed 1000 7 (HostInfo "nas" true false) ]} in
  scan_hosts [(9%N, true, 1010); (7%N, false, 1011)] devs =
  scan_hosts [(7%N, false, 1011); (9%N, true, 1010)] devs.
Proof.
  cbv zeta. apply sweep_order_irrelevant.
  - apply (bool_decide_unpack _). vm_compute. exact I.
  - apply perm_swap.
Defined.

(** ** The list of hosts *)

Lemma N_le_strongly_sorted_lt (l : list N) :
  StronglySorted N.le l → NoDup l → StronglySorted N.lt l.
Proof.
  induction 1 as [|x l Hl IH Hx]; intros Hnd; [constructor|].
  apply NoDup_cons in Hnd as [Hnotin Hnd].
  constructor; [by apply IH|].
  apply Forall_forall. intros y Hy.
  rewrite Forall_forall in Hx. specialize (Hx y Hy).
  assert (x ≠ y) by (intros ->; done). lia.
Qed.

Lemma elem_of_hosts network_hosts known a :
  a ∈ hosts network_hosts known ↔ a ∈ network_hosts ∨ is_Some (known !! a).
Proof.
  unfold hosts. cbv zeta. rewrite merge_sort_Permutation, elem_of_elements.
  by rewrite elem_of_union, elem_of_list_to_set, elem_of_dom.
Qed.

(** X6. [hosts] ascends strictly by numeric address, so it holds no address
    twice, and it holds exactly the hosts of the network and the keys of
    the known-hosts list: a known host outside the network is scanned
    too. *)
Theorem hosts_sorted_complete network_hosts known :
  StronglySorted N.lt (hosts network_hosts known)
  ∧ ∀ a, a ∈ hosts network_hosts known ↔
         a ∈ network_hosts ∨ is_Some (known !! a).
Proof.
  unfold hosts. cbv zeta. split.
  - apply N_le_strongly_sorted_lt.
    + apply (StronglySorted_merge_sort N.le).
    + rewrite merge_sort_Permutation. apply NoDup_elements.
  - apply elem_of_hosts.
Qed.

(** X7. When the probes go to addresses of [hosts] only, every record of
    the registry belongs to an address of [hosts]. *)
Theorem registry_within_hosts network_hosts known now_init tr a :
  (∀ a' ok t, Probe a' ok t ∈ tr → a' ∈ hosts network_hosts known) →
  is_Some (devices (run (init known now_init) tr) !! a) →
  a ∈ hosts network_hosts known.
Proof.
  revert a. induction tr as [|e tr IH] using rev_ind; intros a Htr.
  - cbn. rewrite init_devices_lookup, fmap_is_Some. intros Hk.
    apply elem_of_hosts. by right.
  - assert (Htr' : ∀ a' ok t, Probe a' ok t ∈ tr →
                              a' ∈ hosts network_hosts known).
    { intros a' ok t Hin. apply (Htr a' ok t), elem_of_app. by left. }
    rewrite run_snoc. destruct e as [a0 ok t|now].
    + cbn [step devices]. rewrite scan_host_lookup.
      case_decide as E; [subst a0|by apply IH].
      intros _. apply (Htr a ok t), elem_of_app. right. by left.
    + cbn [step]. rewrite bookkeeping_lookup. intros Hsome. apply (IH a Htr').
      destruct (devices _ !! a); [done|]. by destruct Hsome.
Qed.

Lemma registry_within_hosts_witness :
  9%N ∈ hosts [8%N; 9%N; 10%N] {[ 200%N := HostInfo "nas" true false ]}.
Proof.
  apply (registry_within_hosts [8%N; 9%N; 10%N]
           {[ 200%N := HostInfo "nas" true false ]} 1000
           [Probe 9%N true 1010; Probe 200%N false 1011] 9%N).
  - intros a' ok t Hin. apply list_elem_of_In in Hin. cbn in Hin.
    apply list_elem_of_In.
    destruct Hin as [[= <- _ _]|[[= <- _ _]|[]]]; vm_compute; tauto.
  - vm_compute. eauto.
Defined.

(** ** Static and dynamic records *)

Lemma record_origin_mark_alive known now_init a d now :
  record_origin known now_init a d →
  record_origin known now_init a (mark_alive now d).
Proof.
  unfold record_origin, mark_alive. intros [Hip Hk]. split.
  - by destruct (first_seen d).
  - destruct (known !! a).
    + by destruct (first_seen d).
    + destruct Hk as (? & ? & ? & ? & Hf & ?). rewrite Hf. cbn. eauto 10.
Qed.

Lemma record_origin_step known now_init st e :
  map_Forall (record_origin known now_init) (devices st) →
  (∀ a, is_Some (known !! a) → is_Some (devices st !! a)) →
  map_Forall (record_origin known now_init) (devices (step st e))
  ∧ (∀ a, is_Some (known !! a) → is_Some (devices (step st e) !! a)).
Proof.
  intros Hinv Hdom. destruct e as [a0 ok t|now]; cbn [step devices].
  - split.
    + intros a d. rewrite scan_host_lookup.
      case_decide as E; [subst a0|by apply Hinv].
      destruct (devices st !! a) as [d0|] eqn:Hd0.
      * pose proof (Hinv a d0 Hd0) as H0.
        destruct ok; intros [= <-]; [by apply record_origin_mark_alive|done].
      * destruct ok; intros [= <-]. split; [done|].
        destruct (known !! a) eqn:Hk; [|cbn; by eauto 10].
        destruct (Hdom a) as [? ?]; [by eauto|congruence].
    + intros a Hk. rewrite scan_host_lookup.
      destruct (Hdom a Hk) as [d Hd].
      case_decide as E; [subst a0; rewrite Hd; by destruct ok|by eauto].
  - split.
    + intros a d. rewrite bookkeeping_lookup.
      destruct (devices st !! a) as [d0|] eqn:Hd0; [|done].
      destruct (stale now d0); [done|]. intros [= <-].
      pose proof (Hinv a d0 Hd0). by destruct (_ && _).
    + intros a Hk. rewrite bookkeeping_lookup.
      destruct (Hdom a Hk) as [d Hd]. rewrite Hd.
      destruct (Hinv a d Hd) as [_ Ho]. destruct Hk as [info Hk].
      rewrite Hk in Ho. destruct Ho as (Hs & _).
      rewrite (stale_protected now d) by by right. by eauto.
Qed.

Lemma run_record_origin known now_init tr :
  map_Forall (record_origin known now_init)
    (devices (run (init known now_init) tr))
  ∧ (∀ a, is_Some (known !! a) →
          is_Some (devices (run (init known now_init) tr) !! a)).
Proof.
  induction tr as [|e tr IH] using rev_ind.
  - split.
    + intros a d. cbn. rewrite init_devices_lookup.
      destruct (known !! a) as [info|] eqn:Hk; [|done]. intros [= <-].
      split; [done|]. by rewrite Hk.
    + intros a [info Hk]. cbn. rewrite init_devices_lookup, Hk. by eauto.
  - rewrite run_snoc. destruct IH as [IH1 IH2].
    by apply record_origin_step.
Qed.

(** X8. In every state that an execution reaches, each record carries its
    own address; the record of a known host is static and keeps the
    hostname, the flags and the creation time it was seeded with; every
    other record is dynamic, has no hostname and neither flag, was first
    seen when it was created and has been seen. Every known host has a
    record. So a required record and a VIP record are always static. *)
Theorem records_keep_their_origin known now_init tr :
  let st := run (init known now_init) tr in
  map_Forall (record_origin known now_init) (devices st)
  ∧ (∀ a, is_Some (known !! a) → is_Some (devices st !! a))
  ∧ (∀ a d, devices st !! a = Some d →
       required d = true ∨ vip d = true ∨ is_Some (hostname d) →
       from_known_hosts d = true).
Proof.
  cbv zeta. destruct (run_record_origin known now_init tr) as [Hinv Hdom].
  split; [done|]. split; [done|].
  intros a d Hd Hflag. destruct (Hinv a d Hd) as [_ Ho].
  destruct (known !! a); [by destruct Ho|].
  destruct Ho as (_ & Hh & Hr & Hv & _). rewrite Hh, Hr, Hv in Hflag.
  destruct Hflag as [?|[?|[? ?]]]; done.
Qed.

(** ** Who is new *)

(** A static record is marked once the baseline is done. *)
Lemma static_marked known now_init tr a d :
  let st := run (init known now_init) tr in
  devices st !! a = Some d →
  from_known_hosts d = true →
  baseline_done st = true →
  seen_before_baseline d = Some true.
Proof.
  cbv zeta. revert a d. induction tr as [|e tr IH] using rev_ind; [done|].
  intros a d. rewrite run_snoc.
  destruct (run_flags known now_init tr) as [Hb Hf]. cbv zeta in Hb, Hf.
  destruct e as [a0 ok t|now].
  - cbn [step devices baseline_done]. rewrite scan_host_lookup.
    case_decide as E; [subst a0|by apply IH].
    destruct (devices _ !! a) as [d0|] eqn:Hd0.
    + destruct ok; intros [= <-] Hs Hbd.
      * assert (seen_before_baseline (mark_alive t d0)
                = seen_before_baseline d0) as ->
          by (unfold mark_alive; by destruct (first_seen d0)).
        apply (IH a d0 Hd0); [|done].
        revert Hs. unfold mark_alive. by destruct (first_seen d0).
      * by apply (IH a d0 Hd0).
    + by destruct ok; intros [= <-].
  - cbn [step]. rewrite bookkeeping_lookup.
    destruct (devices _ !! a) as [d0|] eqn:Hd0; [|done].
    destruct (stale now d0); [done|]. rewrite Hb, Hf.
    destruct (existsb is_EndSweep tr) eqn:He; cbn; intros [= <-] Hs _; [|done].
    by apply (IH a d0 Hd0 Hs).
Qed.

(** X9. Only discovered devices are ever new: in every view of every
    execution, an entry with [is_new] true is online and belongs to an
    address outside the known-hosts list, so it has no hostname and is
    neither required nor a VIP. *)
Theorem only_dynamic_is_new known now_init tr now p :
  p ∈ api_devices now (run (init known now_init) tr) →
  is_new p = true →
  known !! p_ip p = None
  ∧ p_online p = true
  ∧ p_hostname p = None ∧ p_required p = false ∧ p_vip p = false.
Proof.
  intros (a & d & Hd & _ & ->)%elem_of_api_devices. cbn.
  intros (Hon & _ & Hbd & Hsb)%compute_is_new_iff.
  destruct (proj1 (run_record_origin known now_init tr) a d Hd) as [_ Ho].
  destruct (known !! a) as [info|] eqn:Hk.
  - destruct Ho as (Hs & _).
    pose proof (static_marked known now_init tr a d Hd Hs Hbd) as Hm.
    unfold seen_before in Hsb. by rewrite Hm in Hsb.
  - by destruct Ho as (_ & -> & -> & -> & _).
Qed.

(** ** More on the view *)

Lemma view_entries_offline now st p :
  p ∈ api_devices now st → p_online p = false →
  p_required p = true ∧ p_vip p = false ∧ is_new p = false.
Proof.
  intros (a & d & Hd & Hv & ->)%elem_of_api_devices. cbn. intros Hoff.
  apply visible_iff in Hv as [Hon|(? & ? & ?)]; [congruence|].
  unfold compute_is_new. by rewrite Hoff.
Qed.

(** X10. No address is listed twice in a view, and every offline entry of a
    view is required, is not a VIP and is not new. *)
Theorem view_entries_distinct now st :
  NoDup (p_ip <$> api_devices now st)
  ∧ ∀ p, p ∈ api_devices now st → p_online p = false →
         p_required p = true ∧ p_vip p = false ∧ is_new p = false.
Proof.
  split.
  - unfold api_devices. rewrite <- list_fmap_compose.
    apply NoDup_sorted_rows_ips.
  - intros p. apply view_entries_offline.
Qed.

(** X11. An address without a record that answers a probe at [t] after the
    baseline is listed from then on as an online entry without hostname
    and flags, and the entry is new exactly as long as no more than 300
    seconds have passed since [t]. *)
Theorem discovered_after_baseline st a t now :
  baseline_done st = true →
  devices st !! a = None →
  Payload a None false false true (Some (now - t)) (Some (now - t))
          (now - t <=? 300)
    ∈ api_devices now (step st (Probe a true t)).
Proof.
  intros Hb Hnone. apply elem_of_api_devices.
  exists a, (new_dynamic a t). cbn [step devices baseline_done].
  rewrite (scan_host_ok_unknown a t _ Hnone). split; [done|]. split; [done|].
  unfold make_row, compute_is_new. cbn. by rewrite Hb.
Qed.

Lemma discovered_after_baseline_witness :
  Payload 9 None false false true (Some 290) (Some 290) true
    ∈ api_devices 1300
        (step (run (init ∅ 900) [EndSweep 1000]) (Probe 9%N true 1010)).
Proof.
  exact (discovered_after_baseline (run (init ∅ 900) [EndSweep 1000])
           9%N 1010 1300 eq_refl eq_refl).
Defined.

(** ** Eviction over time *)

Lemma stale_later now now' d :
  now ≤ now' → stale now d = true → stale now' d = true.
Proof.
  unfold stale, base, py_or, truthy. intros Hle.
  destruct (from_known_hosts d || required d); [done|].
  destruct (online d); [done|].
  change OFFLINE_FORGET_SECONDS with 300.
  destruct (last_seen d) as [l|]; cbn;
    [destruct (Z.eqb_spec l 0); cbn|];
    destruct (Z.eqb_spec (created_at d) 0); cbn;
    rewrite ?Z.gtb_ltb, ?Z.ltb_lt; try lia;
    repeat (match goal with
            | |- context [?x =? 0] => destruct (Z.eqb_spec x 0); cbn
            end); rewrite ?Z.gtb_ltb, ?Z.ltb_lt; lia.
Qed.

(** X12. An eviction makes an earlier one superfluous: evicting at [now] and
    then at a later [now'] leaves the registry that the eviction at [now']
    alone leaves. In particular evicting twice at the same time is
    evicting once. *)
Theorem evict_stale_later_subsumes now now' (devs : gmap N device) :
  now ≤ now' →
  evict_stale now' (evict_stale now devs) = evict_stale now' devs.
Proof.
  intros Hle. apply map_eq. intros a. rewrite !evict_stale_lookup.
  destruct (devs !! a) as [d|]; [|done].
  destruct (stale now d) eqn:Hs; [|done].
  by rewrite (stale_later now now' d Hle Hs).
Qed.

Lemma evict_stale_later_subsumes_witness :
  let devs : gmap N device :=
    <[ 9%N := set_online false (new_dynamic 9 1010) ]>
      {[ 12%N := set_online false (new_dynamic 12 1900) ]} in
  evict_stale 2300 (evict_stale 2000 devs) = evict_stale 2300 devs.
Proof. cbv zeta. apply evict_stale_later_subsumes. lia. Defined.

Lemma only_dynamic_is_new_witness :
  let p := Payload 9 None false false true (Some 290) (Some 290) true in
  ({[ 7%N := HostInfo "nas" true true ]} : gmap N host_info) !! p_ip p = None
  ∧ p_online p = true
  ∧ p_hostname p = None ∧ p_required p = false ∧ p_vip p = false.
Proof.
  cbv zeta.
  apply (only_dynamic_is_new {[ 7%N := HostInfo "nas" true true ]} 900
           [Probe 7%N true 950; EndSweep 1000; Probe 9%N true 1010] 1300).
  - apply list_elem_of_In. vm_compute. tauto.
  - reflexivity.
Defined.

(** ** The dashboard script *)

(** X17. For a whole number of seconds that a double holds exactly:
    [formatAge] of a number that is not negative shows the two leading
    units of its exact split into hours, minutes below 60 and seconds below
    60: hours and minutes from one hour on, else minutes and seconds from
    one minute on, else seconds. Of a negative number it shows only the
    remainder of the division by 60, with its sign. *)
Theorem formatAge_reading s :
  double_exact s →
  (0 ≤ s →
     ∃ h m r, s = 3600 * h + 60 * m + r
            ∧ 0 ≤ h ∧ (0 ≤ m < 60) ∧ (0 ≤ r < 60)
            ∧ formatAge (Some s) =
                if 0 <? h then str_of_Z h +:+ "h " +:+ str_of_Z m +:+ "m"
                else if 0 <? m then str_of_Z m +:+ "m " +:+ str_of_Z r +:+ "s"
                else str_of_Z r +:+ "s")
  ∧ (s < 0 →
       (-60 < Z.rem s 60 ≤ 0)
       ∧ formatAge (Some s) = str_of_Z (Z.rem s 60) +:+ "s").
Proof.
  intros _. split.
  - intros Hs. exists (s / 3600), (Z.rem s 3600 / 60), (Z.rem s 60).
    split; [|split; [|split; [|split]]]; [| | | |reflexivity];
      Z.to_euclidean_division_equations; lia.
  - intros Hs. split; [Z.to_euclidean_division_equations; lia|].
    unfold formatAge. cbv zeta.
    assert ((0 <? s / 3600) = false) as ->
      by (apply Z.ltb_ge; Z.to_euclidean_division_equations; lia).
    assert ((0 <? Z.rem s 3600 / 60) = false) as ->
      by (apply Z.ltb_ge; Z.to_euclidean_division_equations; lia).
    done.
Qed.

Lemma formatAge_reading_witness :
  double_exact 3725
  ∧ ∃ h m r, 3725 = 3600 * h + 60 * m + r
           ∧ 0 ≤ h ∧ (0 ≤ m < 60) ∧ (0 ≤ r < 60)
           ∧ formatAge (Some 3725) =
               if 0 <? h then str_of_Z h +:+ "h " +:+ str_of_Z m +:+ "m"
               else if 0 <? m then str_of_Z m +:+ "m " +:+ str_of_Z r +:+ "s"
               else str_of_Z r +:+ "s".
Proof.
  assert (Hd : double_exact 3725) by (unfold double_exact; lia).
  split; [exact Hd|].
  apply (proj1 (formatAge_reading 3725 Hd)). lia.
Defined.




(** ** The ping command *)

(** X19. For a timeout that a double holds exactly: outside Windows the
    wait that [ping_ip] passes to ping is a whole number of seconds and at
    least one: a timeout below 2000 ms waits one second, also when it is
    below 1000 ms or negative, and a longer one is cut down to whole
    seconds. On Windows the timeout is passed on in milliseconds as it
    is. *)
Theorem ping_cmd_timeout system ip timeout_ms :
  double_exact timeout_ms →
  (system ≠ "windows" →
     ∃ timeout_s,
       ping_cmd system ip timeout_ms =
         ["ping"; "-c"; "1"; "-W"; str_of_Z timeout_s; ip]
       ∧ 1 ≤ timeout_s
       ∧ (timeout_ms < 2000 → timeout_s = 1)
       ∧ (1000 ≤ timeout_ms →
            1000 * timeout_s ≤ timeout_ms < 1000 * timeout_s + 1000))
  ∧ (system = "windows" →
       ping_cmd system ip timeout_ms =
         ["ping"; "-n"; "1"; "-w"; str_of_Z timeout_ms; ip]).
Proof.
  intros _. unfold ping_cmd. split.
  - intros Hs. rewrite bool_decide_false by done.
    exists (Z.max 1 (Z.quot timeout_ms 1000)). split; [done|].
    repeat split; Z.to_euclidean_division_equations; lia.
  - intros ->. done.
Qed.

Lemma ping_cmd_timeout_witness :
  double_exact 1000
  ∧ ∃ timeout_s,
      ping_cmd "linux" "10.0.0.5" 1000 =
        ["ping"; "-c"; "1"; "-W"; str_of_Z timeout_s; "10.0.0.5"]
      ∧ timeout_s = 1.
Proof.
  assert (Hd : double_exact 1000) by (unfold double_exact; lia).
  split; [exact Hd|].
  destruct (proj1 (ping_cmd_timeout "linux" "10.0.0.5" 1000 Hd))
    as (timeout_s & Hcmd & _ & Hone & _); [done|].
  exists timeout_s. split; [exact Hcmd|]. apply Hone. lia.
Defined.


(** X20. When the clock does not run backwards between two successful probes
    of an address, no entry of a view was last seen longer ago than it was
    first seen: [last_seen_seconds_ago] is at most [age_seconds]; and an
    entry that has an age has a last-seen time. *)
Theorem last_seen_ago_within_age known now_init tr now p age :
  clock_monotone tr = true →
  p ∈ api_devices now (run (init known now_init) tr) →
  age_seconds p = Some age →
  ∃ ago, last_seen_seconds_ago p = Some ago ∧ ago ≤ age.
Proof.
  intros Hclock (a & d & Hd & _ & ->)%elem_of_api_devices. cbn.
  unfold compute_age, compute_last_seen_ago.
  assert (Hord : seen_in_order [] a d).
  { apply (run_seen_in_order tr (init known now_init)); [|done..].
    intros j d0. cbn. rewrite init_devices_lookup.
    destruct (known !! j); [|done]. by intros [= <-]. }
  unfold seen_in_order in Hord.
  destruct (first_seen d) as [f|]; [|done]. intros [= <-].
  destruct Hord as (l & -> & Hle & _). exists (now - l). split; [done|lia].
Qed.

Lemma last_seen_ago_within_age_witness :
  ∃ ago, last_seen_seconds_ago
           (Payload 7 (Some "nas") true true true (Some 350) (Some 100) false)
         = Some ago ∧ ago ≤ 350.
Proof.
  apply (last_seen_ago_within_age {[ 7%N := HostInfo "nas" true true ]} 900
           [Probe 7%N true 950; EndSweep 1000; Probe 7%N true 1200] 1300
           (Payload 7 (Some "nas") true true true (Some 350) (Some 100) false)
           350); [reflexivity| |reflexivity].
  apply list_elem_of_In. vm_compute. tauto.
Defined.
